(** * HiGHS: LP data defaults, the LP solver checks, and the engine budget

    The development follows the two files of the repository:

    - [src/lp_data/HighsLp.h]: the option block [HighsOptions] with its
      default member initialisers, the LP container [HighsLp] and the
      status enumerations (module [HighsLp_h]);
    - [check/TestLpSolvers.cpp]: the client programs that drive one
      [Highs] object through options, runs and queries and [REQUIRE]
      what they observe (module [TestLpSolvers]).

    The class [Highs] itself (the orchestrator and both engines) is not
    part of these files.  The client programs are therefore interpreted
    against an arbitrary implementation of the calls they make; module
    [Orchestrator] models the routing of [run()] and the engines'
    iteration and time budgets from the written specification. *)

From Stdlib Require Import ZArith String List Bool Lia Floats.
Import ListNotations.

Set Warnings "-inexact-float".

Local Open Scope Z_scope.
Local Open Scope string_scope.

(* ===================================================================== *)
(** ** [lp_data/HighsLp.h] *)
(* ===================================================================== *)

Module HighsLp_h.

(** C [int]: 32 bits, two's complement.  The header only stores
    constants in its [int] members; [int_range] is the range they live
    in. *)
Definition int_range (z : Z) : Prop := - 2 ^ 31 <= z < 2 ^ 31.

(** [enum class HighsMpsParserType { free, fixed }] *)
Inductive HighsMpsParserType : Type := free | fixed.

(** [enum objSense { OBJSENSE_MINIMIZE = 1, OBJSENSE_MAXIMIZE = -1 }] *)
Inductive objSense : Type := OBJSENSE_MINIMIZE | OBJSENSE_MAXIMIZE.

Definition objSense_value (s : objSense) : Z :=
  match s with
  | OBJSENSE_MINIMIZE => 1
  | OBJSENSE_MAXIMIZE => -1
  end.

(** [FILE*] members are only ever initialised with [stdout]. *)
Inductive FILE_ptr : Type := stdout.

(** [struct HighsOptions]: one field per member, in declaration order. *)
Record HighsOptions : Type := mkHighsOptions {
  filenames : string;
  pami : bool;
  sip : bool;
  scip : bool;
  timeLimit : float;
  parser_type : HighsMpsParserType;
  presolveMode : string;
  crashMode : string;
  edWtMode : string;
  priceMode : string;
  partitionFile : string;
  output : FILE_ptr;
  messageLevel : Z;
  logfile : FILE_ptr;
  transposeLp : bool;
  scaleLp : bool;
  permuteLp : bool;
  tightenLp : bool;
  primalFeasibilityTolerance : float;
  dualFeasibilityTolerance : float;
  perturbCostsSimplex : bool;
  iterationLimitSimplex : Z;
  dualObjectiveValueUpperBound : float;
  clean_up : bool
}.

(** The value of a default-constructed [HighsOptions]: every member
    takes its default member initialiser ([bool x = 0] is [false]). *)
Definition HighsOptions_default : HighsOptions := {|
  filenames := "";
  pami := false;
  sip := false;
  scip := false;
  timeLimit := 0%float;
  parser_type := free;
  presolveMode := "off";
  crashMode := "off";
  edWtMode := "dse2dvx";
  priceMode := "rowswcolsw";
  partitionFile := "";
  output := stdout;
  messageLevel := 0;
  logfile := stdout;
  transposeLp := false;
  scaleLp := true;
  permuteLp := false;
  tightenLp := false;
  primalFeasibilityTolerance := 1e-7%float;
  dualFeasibilityTolerance := 1e-7%float;
  perturbCostsSimplex := true;
  iterationLimitSimplex := 999999;
  dualObjectiveValueUpperBound := 1e+200%float;
  clean_up := false
|}.

(** [class HighsLp]: the model data with its default initialisers. *)
Record HighsLp : Type := mkHighsLp {
  numCol_ : Z;
  numRow_ : Z;
  nnz_ : Z;
  Astart_ : list Z;
  Aindex_ : list Z;
  Avalue_ : list float;
  colCost_ : list float;
  colLower_ : list float;
  colUpper_ : list float;
  rowLower_ : list float;
  rowUpper_ : list float;
  sense_ : Z;
  offset_ : float;
  model_name_ : string
}.

Definition HighsLp_default : HighsLp := {|
  numCol_ := 0;
  numRow_ := 0;
  nnz_ := 0;
  Astart_ := [];
  Aindex_ := [];
  Avalue_ := [];
  colCost_ := [];
  colLower_ := [];
  colUpper_ := [];
  rowLower_ := [];
  rowUpper_ := [];
  sense_ := 1;
  offset_ := 0%float;
  model_name_ := ""
|}.

(** [enum class HighsStatus] of this header. *)
Inductive HighsStatus : Type :=
| OK | Init | LpError | OptionsError | PresolveError | SolutionError
| PostsolveError | NotImplemented | Unbounded | Infeasible | Feasible
| Optimal | Timeout.

(** [enum class HighsInputStatus]; its enumerator [OK] is written
    [InputOK] here, [OK] being taken by [HighsStatus]. *)
Inductive HighsInputStatus : Type :=
| InputOK | FileNotFound | ErrorMatrixDimensions | ErrorMatrixIndices
| ErrorMatrixStart | ErrorMatrixValue | ErrorColBounds | ErrorRowBounds
| ErrorObjective.

End HighsLp_h.

(* ===================================================================== *)
(** ** [check/TestLpSolvers.cpp] *)
(* ===================================================================== *)

Module TestLpSolvers.

Local Open Scope float_scope.
Local Open Scope Z_scope.

(** [HighsInt] is the solver's integer type. *)
Definition HighsInt : Type := Z.

(** [const bool dev_run = false;] *)
Definition dev_run : bool := false.

(** [struct IterationCount] *)
Record IterationCount : Type := mkIterationCount {
  simplex : HighsInt;
  ipm : HighsInt;
  crossover : HighsInt
}.

(** *** Types of [Highs.h] that the file uses *)

(** Modelled from the spec: the declaration of [HighsStatus] is in a header
    that is not among the sources.  Section 6: status values [Ok],
    [Warning], [Error] on every call; the file spells them [kOk] and
    [kWarning]. *)
Inductive HighsStatus : Type := kError | kOk | kWarning.

(** Modelled from the spec: the declaration of [HighsModelStatus] is in a
    header that is not among the sources.  Section 3 enumerates the sixteen
    values in this order; the file spells four of them ([kOptimal],
    [kObjectiveBound], [kTimeLimit], [kIterationLimit]). *)
Inductive HighsModelStatus : Type :=
| kNotSet | kLoadError | kModelError | kPresolveError | kSolveError
| kPostsolveError | kModelEmpty | kOptimal | kInfeasible
| kUnboundedOrInfeasible | kUnbounded | kObjectiveBound | kObjectiveTarget
| kTimeLimit | kIterationLimit | kUnknown.

(** Modelled from the spec: [ObjSense], section 3 (sense is either
    minimization or maximization). *)
Inductive ObjSense : Type := kMinimize | kMaximize.

(** Modelled from the spec: [SimplexStrategy] is declared in a header that
    is not among the sources.  Section 3 lists the strategies as Choose,
    DualPlain, DualTasks, DualMulti, Primal; they are numbered from
    [kSimplexStrategyMin] in that order and [kSimplexStrategyNum] counts
    them. *)
Definition kSimplexStrategyMin : HighsInt := 0.
Definition kSimplexStrategyChoose : HighsInt := 0.
Definition kSimplexStrategyDualPlain : HighsInt := 1.
Definition kSimplexStrategyDualTasks : HighsInt := 2.
Definition kSimplexStrategyDualMulti : HighsInt := 3.
Definition kSimplexStrategyPrimal : HighsInt := 4.
Definition kSimplexStrategyNum : HighsInt := 5.

(** Modelled from the spec: [HighsInfo] (the LpInfo snapshot of section 3):
    iteration counts, infeasibility triples for the primal and dual side,
    the objective value and the two complementarity measures. *)
Record HighsInfo : Type := mkHighsInfo {
  simplex_iteration_count : HighsInt;
  ipm_iteration_count : HighsInt;
  crossover_iteration_count : HighsInt;
  num_primal_infeasibilities : HighsInt;
  max_primal_infeasibility : float;
  sum_primal_infeasibilities : float;
  num_dual_infeasibilities : HighsInt;
  max_dual_infeasibility : float;
  sum_dual_infeasibilities : float;
  objective_function_value : float;
  max_complementarity_violation : float;
  sum_complementarity_violations : float
}.

(** Modelled from the spec: [HighsSimplexStats] (section 3, Factorization
    state): the validity flag, the iteration count, the refactorization
    counters and the four density estimates. *)
Record HighsSimplexStats : Type := mkHighsSimplexStats {
  valid : bool;
  iteration_count : HighsInt;
  num_invert : HighsInt;
  last_invert_num_el : HighsInt;
  last_factored_basis_num_el : HighsInt;
  col_aq_density : float;
  row_ep_density : float;
  row_ap_density : float;
  row_DSE_density : float
}.

(** An option value is a bool, an integer, a double or a string (the
    overloads of [setOptionValue] the file calls). *)
Inductive OptionValue : Type :=
| OptBool (b : bool)
| OptInt (i : HighsInt)
| OptDouble (d : float)
| OptString (s : string).

(** *** The calls made on a [Highs] object *)

(** The read-only member functions the file calls.  [getOptionValue] and
    [getDualObjectiveValue] write their result through a reference
    parameter (for [getOptionValue] its type selects the overload); the
    call yields the status together with that value. *)
Inductive Query : Type -> Type :=
| getInfo : Query HighsInfo
| getModelStatus : Query HighsModelStatus
| getRunTime : Query float
| getSimplexStats : Query HighsSimplexStats
| getDualObjectiveValue : Query (HighsStatus * float)
| getOptionValue_double (key : string) : Query (HighsStatus * float)
| getOptionValue_int (key : string) : Query (HighsStatus * HighsInt).

(** The member functions that may change the solver; each returns a
    [HighsStatus]. *)
Inductive Command : Type :=
| setOptionValue (key : string) (value : OptionValue)
| readModel (filename : string)
| setBasis
| clearSolver
| resetOptions
| changeObjectiveSense (sense : ObjSense)
| run.

(** A client program: it returns, stops at a [REQUIRE] that does not hold
    (the source line is kept), reads the solver, or calls it. *)
Inductive TestM (A : Type) : Type :=
| Return (a : A)
| RequireFailed (line : nat)
| Ask (R : Type) (q : Query R) (k : R -> TestM A)
| Invoke (c : Command) (k : HighsStatus -> TestM A).

Arguments Return {A} a.
Arguments RequireFailed {A} line.
Arguments Ask {A R} q k.
Arguments Invoke {A} c k.

Fixpoint bind {A B : Type} (t : TestM A) (f : A -> TestM B) : TestM B :=
  match t with
  | Return a => f a
  | RequireFailed line => RequireFailed line
  | Ask q k => Ask q (fun r => bind (k r) f)
  | Invoke c k => Invoke c (fun r => bind (k r) f)
  end.

(** [REQUIRE(cond)] of the test framework, tagged with its source line. *)
Definition REQUIRE {A : Type} (line : nat) (cond : bool) (k : TestM A) : TestM A :=
  if cond then k else RequireFailed line.

(** [if (b) { t }] for a block [t] that falls through. *)
Definition when (b : bool) (t : TestM unit) : TestM unit :=
  if b then t else Return tt.

Declare Scope test_scope.
Delimit Scope test_scope with test.
Notation "'call' x <- c ;; k" := (Invoke c (fun x => k))
  (at level 61, x pattern, c at next level, right associativity) : test_scope.
Notation "'read' x <- q ;; k" := (Ask q (fun x => k))
  (at level 61, x pattern, q at next level, right associativity) : test_scope.
Notation "'require' n 'that' b ;; k" := (REQUIRE n b k)
  (at level 61, n at level 0, b at next level, right associativity) : test_scope.
Notation "t ;;; k" := (bind t (fun _ => k))
  (at level 61, right associativity) : test_scope.
Local Open Scope test_scope.

(** *** Comparisons the [REQUIRE]s use *)

Definition HighsStatus_eqb (a b : HighsStatus) : bool :=
  match a, b with
  | kError, kError | kOk, kOk | kWarning, kWarning => true
  | _, _ => false
  end.

Definition model_status_index (m : HighsModelStatus) : Z :=
  match m with
  | kNotSet => 0 | kLoadError => 1 | kModelError => 2 | kPresolveError => 3
  | kSolveError => 4 | kPostsolveError => 5 | kModelEmpty => 6 | kOptimal => 7
  | kInfeasible => 8 | kUnboundedOrInfeasible => 9 | kUnbounded => 10
  | kObjectiveBound => 11 | kObjectiveTarget => 12 | kTimeLimit => 13
  | kIterationLimit => 14 | kUnknown => 15
  end.

Definition HighsModelStatus_eqb (a b : HighsModelStatus) : bool :=
  model_status_index a =? model_status_index b.

Infix "==s" := HighsStatus_eqb (at level 70) : test_scope.
Infix "==m" := HighsModelStatus_eqb (at level 70) : test_scope.

(** *** Running a client program against an implementation *)

(** An implementation of the [Highs] calls: its states, the state of a
    freshly constructed object ([Highs highs;]), the answers of the
    read-only member functions and the effect of the others. *)
Record HighsClass : Type := mkHighsClass {
  state : Type;
  construct : state;
  query : forall R : Type, Query R -> state -> R;
  command : Command -> state -> HighsStatus * state
}.

Arguments query _ {R} _ _.

Inductive Verdict (A : Type) : Type :=
| Passed (a : A)
| Stopped (line : nat).

Arguments Passed {A} a.
Arguments Stopped {A} line.

(** What an execution leaves: the verdict, the solver's last state, and
    for every [run()] its return status with the state it left behind,
    oldest first. *)
Record Outcome (H : HighsClass) (A : Type) : Type := mkOutcome {
  verdict : Verdict A;
  final : state H;
  runs : list (HighsStatus * state H)
}.

Arguments mkOutcome {H A} verdict final runs.
Arguments verdict {H A} _.
Arguments final {H A} _.
Arguments runs {H A} _.

Definition log_run {H : HighsClass} (c : Command) (r : HighsStatus)
  (s : state H) : list (HighsStatus * state H) :=
  match c with
  | run => [(r, s)]
  | _ => []
  end.

Fixpoint exec (H : HighsClass) {A : Type} (t : TestM A) (s : state H)
  (log : list (HighsStatus * state H)) : Outcome H A :=
  match t with
  | Return a => mkOutcome (Passed a) s log
  | RequireFailed line => mkOutcome (Stopped line) s log
  | Ask q k => exec H (k (query H q s)) s log
  | Invoke c k =>
      let r := fst (command H c s) in
      let s' := snd (command H c s) in
      exec H (k r) s' (log ++ log_run c r s')
  end.

(** A test case constructs its own [Highs] object. *)
Definition test_case (H : HighsClass) (t : TestM unit) : Outcome H unit :=
  exec H t (construct H) [].

Definition passes (H : HighsClass) (t : TestM unit) : Prop :=
  verdict (test_case H t) = Passed tt.

Definition passes_from (H : HighsClass) (s : state H) (t : TestM unit) : Prop :=
  verdict (exec H t s []) = Passed tt.

(** The model status a state reports. *)
Definition model_status_of (H : HighsClass) (s : state H) : HighsModelStatus :=
  query H getModelStatus s.




(** *** [testSolver] (lines 33-207) *)

(** [const bool perform_timeout_test = false;] *)
Definition perform_timeout_test : bool := false.

(** The loop of lines 113-117: at most [fuel] more solves from
    [num_solve]; it yields the value of [num_solve] when the loop is left,
    by [break] or by its condition. *)
Fixpoint solve_until_time_limit (fuel : nat) (use_simplex : bool)
  (num_solve : HighsInt) : TestM HighsInt :=
  match fuel with
  | O => Return num_solve
  | S fuel' =>
      when use_simplex (call _ <- setBasis ;; Return tt) ;;;
      call _ <- run ;;
      read model_status <- getModelStatus ;;
      if model_status ==m kTimeLimit then Return num_solve
      else solve_until_time_limit fuel' use_simplex (num_solve + 1)
  end.

(** Lines 97-134, the time limit block. *)
Definition time_limit_block (use_simplex : bool)
  (single_solve_run_time : float) : TestM unit :=
  let min_run_time_for_test := 0.001%float in
  if perform_timeout_test && (min_run_time_for_test <? single_solve_run_time)%float
  then
    let ideal_num_solve := 10 in
    let local_time_limit := (10 * single_solve_run_time)%float in
    read run_time <- getRunTime ;;
    let use_time_limit := (run_time + local_time_limit)%float in
    call return_status <- setOptionValue "time_limit" (OptDouble use_time_limit) ;;
    require 109 that (return_status ==s kOk) ;;
    let max_num_solve := 10 * ideal_num_solve in
    bind (solve_until_time_limit (Z.to_nat max_num_solve) use_simplex 0)
      (fun num_solve =>
         require 118 that (num_solve <? max_num_solve) ;;
         read run_time' <- getRunTime ;;
         Return tt)
  else Return tt.

(** Lines 59-206: what [testSolver] does once the strategy is set.
    [info] is a reference into the solver (line 43), so every use of
    [info.x] reads the solver as it is at that point. *)
Definition testSolver_from_line_59 (use_simplex : bool)
  (default_iteration_count : IterationCount) : TestM unit :=
  read (return_status, default_time_limit) <- getOptionValue_double "time_limit" ;;
  require 60 that (return_status ==s kOk) ;;
  bind
    (if use_simplex then
       read (return_status, default_simplex_iteration_limit)
         <- getOptionValue_int "simplex_iteration_limit" ;;
       require 65 that (return_status ==s kOk) ;;
       call return_status <- clearSolver ;;
       require 69 that (return_status ==s kOk) ;;
       Return default_simplex_iteration_limit
     else
       read (return_status, default_ipm_iteration_limit)
         <- getOptionValue_int "ipm_iteration_limit" ;;
       require 73 that (return_status ==s kOk) ;;
       Return default_ipm_iteration_limit)
    (fun default_iteration_limit =>
  (* Vanilla solve *)
  read run_time <- getRunTime ;;
  call return_status <- run ;;
  require 79 that (return_status ==s kOk) ;;
  read run_time' <- getRunTime ;;
  let single_solve_run_time := (run_time' - run_time)%float in
  read info <- getInfo ;;
  (if use_simplex then
     require 83 that (simplex_iteration_count info =? simplex default_iteration_count) ;;
     Return tt
   else
     require 88 that (ipm_iteration_count info =? ipm default_iteration_count) ;;
     require 89 that (crossover_iteration_count info =? crossover default_iteration_count) ;;
     Return tt) ;;;
  require 94 that (max_complementarity_violation info =? 0)%float ;;
  require 95 that (sum_complementarity_violations info =? 0)%float ;;
  time_limit_block use_simplex single_solve_run_time ;;;
  call return_status <- setOptionValue "time_limit" (OptDouble default_time_limit) ;;
  require 136 that (return_status ==s kOk) ;;
  (* Iteration limit zero *)
  (if use_simplex then
     call return_status <- setOptionValue "simplex_iteration_limit" (OptInt 0) ;;
     require 147 that (return_status ==s kOk) ;;
     call return_status <- setBasis ;;
     require 150 that (return_status ==s kOk) ;;
     Return tt
   else
     call return_status <- setOptionValue "ipm_iteration_limit" (OptInt 0) ;;
     require 153 that (return_status ==s kOk) ;;
     Return tt) ;;;
  call return_status <- run ;;
  read model_status <- getModelStatus ;;
  require 162 that (return_status ==s kWarning) ;;
  require 163 that (model_status ==m kIterationLimit) ;;
  read info <- getInfo ;;
  (if use_simplex then
     require 166 that (simplex_iteration_count info =? 0) ;; Return tt
   else
     require 168 that (ipm_iteration_count info =? 0) ;; Return tt) ;;;
  (* Iteration limit 10 (simplex) or 5 (IPM) *)
  let further_simplex_iterations := 10 in
  let further_ipm_iterations := 5 in
  (if use_simplex then
     call return_status
       <- setOptionValue "simplex_iteration_limit" (OptInt further_simplex_iterations) ;;
     require 180 that (return_status ==s kOk) ;;
     call return_status <- clearSolver ;;
     require 182 that (return_status ==s kOk) ;;
     Return tt
   else
     call return_status
       <- setOptionValue "ipm_iteration_limit" (OptInt further_ipm_iterations) ;;
     require 189 that (return_status ==s kOk) ;;
     Return tt) ;;;
  call return_status <- run ;;
  require 193 that (return_status ==s kWarning) ;;
  read model_status <- getModelStatus ;;
  require 194 that (model_status ==m kIterationLimit) ;;
  read info <- getInfo ;;
  if use_simplex then
    require 197 that (simplex_iteration_count info =? further_simplex_iterations) ;;
    call return_status
      <- setOptionValue "simplex_iteration_limit" (OptInt default_iteration_limit) ;;
    require 200 that (return_status ==s kOk) ;;
    Return tt
  else
    require 202 that (ipm_iteration_count info =? further_ipm_iterations) ;;
    call return_status
      <- setOptionValue "ipm_iteration_limit" (OptInt default_iteration_limit) ;;
    require 205 that (return_status ==s kOk) ;;
    Return tt).

(** [void testSolver(Highs& highs, const std::string solver,
    IterationCount& default_iteration_count,
    const HighsInt int_simplex_strategy = 0)].  With the simplex solver and
    strategy [kSimplexStrategyDualTasks] it returns at line 52. *)
Definition testSolver (solver : string) (default_iteration_count : IterationCount)
  (int_simplex_strategy : HighsInt) : TestM unit :=
  let use_simplex := (solver =? "simplex")%string in
  when (negb dev_run) (call _ <- setOptionValue "output_flag" (OptBool false) ;; Return tt) ;;;
  call return_status <- setOptionValue "solver" (OptString solver) ;;
  require 47 that (return_status ==s kOk) ;;
  if use_simplex then
    let simplex_strategy := int_simplex_strategy in
    if simplex_strategy =? kSimplexStrategyDualTasks then Return tt
    else
      call return_status <- setOptionValue "simplex_strategy" (OptInt simplex_strategy) ;;
      require 56 that (return_status ==s kOk) ;;
      testSolver_from_line_59 use_simplex default_iteration_count
  else testSolver_from_line_59 use_simplex default_iteration_count.

(** *** [testSolversSetup], [testSolvers] and the test case LP-solver *)

(** [v[i] = x] on a [vector<HighsInt>], for an index inside the vector
    (outside it the C++ is undefined; the vector is left as it is). *)
Fixpoint vector_set (v : list HighsInt) (i : nat) (x : HighsInt) : list HighsInt :=
  match v, i with
  | [], _ => []
  | _ :: v', O => x :: v'
  | y :: v', S i' => y :: vector_set v' i' x
  end.

(** [v[i]] for an index inside the vector. *)
Definition vector_get (v : list HighsInt) (i : HighsInt) : HighsInt :=
  nth (Z.to_nat i) v 0.

(** [void testSolversSetup(const std::string model,
    IterationCount& model_iteration_count,
    vector<HighsInt>& simplex_strategy_iteration_count)]: both reference
    parameters are returned. *)
Definition testSolversSetup (model : string)
  (model_iteration_count : IterationCount)
  (simplex_strategy_iteration_count : list HighsInt)
  : IterationCount * list HighsInt :=
  if (model =? "adlittle")%string then
    let v := simplex_strategy_iteration_count in
    let v := vector_set v (Z.to_nat kSimplexStrategyChoose) 87 in
    let v := vector_set v (Z.to_nat kSimplexStrategyDualPlain) 87 in
    let v := vector_set v (Z.to_nat kSimplexStrategyDualTasks) 72 in
    let v := vector_set v (Z.to_nat kSimplexStrategyDualMulti) 73 in
    let v := vector_set v (Z.to_nat kSimplexStrategyPrimal) 94 in
    ({| simplex := simplex model_iteration_count; ipm := 13; crossover := 2 |}, v)
  else (model_iteration_count, simplex_strategy_iteration_count).

(** [bool have_omp = true;] *)
Definition have_omp : bool := true.

(** The loop of lines 241-248 from index [i], for [n] more indices; it
    yields [model_iteration_count] as the loop leaves it. *)
Fixpoint testSolvers_loop (n : nat) (i : HighsInt)
  (model_iteration_count : IterationCount)
  (simplex_strategy_iteration_count : list HighsInt) : TestM IterationCount :=
  match n with
  | O => Return model_iteration_count
  | S n' =>
      if negb have_omp &&
         ((i =? kSimplexStrategyDualTasks) || (i =? kSimplexStrategyDualMulti))
      then testSolvers_loop n' (i + 1) model_iteration_count
             simplex_strategy_iteration_count
      else
        let model_iteration_count :=
          {| simplex := vector_get simplex_strategy_iteration_count i;
             ipm := ipm model_iteration_count;
             crossover := crossover model_iteration_count |} in
        testSolver "simplex" model_iteration_count i ;;;
        testSolvers_loop n' (i + 1) model_iteration_count
          simplex_strategy_iteration_count
  end.

(** [void testSolvers(Highs& highs, IterationCount& model_iteration_count,
    const vector<HighsInt>& simplex_strategy_iteration_count)] *)
Definition testSolvers (model_iteration_count : IterationCount)
  (simplex_strategy_iteration_count : list HighsInt) : TestM unit :=
  let from_i := kSimplexStrategyMin in
  let to_i := kSimplexStrategyDualMulti in
  bind (testSolvers_loop (Z.to_nat (to_i - from_i)) from_i model_iteration_count
          simplex_strategy_iteration_count)
    (fun model_iteration_count => testSolver "ipm" model_iteration_count 0).

(** The test files live under [HIGHS_DIR], a macro of a configuration
    header that is not among the sources; the test cases take it as a
    parameter. *)
Definition instance_file (HIGHS_DIR model : string) : string :=
  HIGHS_DIR ++ "/check/instances/" ++ model ++ ".mps".

(** [TEST_CASE("LP-solver", "[highs_lp_solver]")] (lines 253-320).  The
    members of the local [IterationCount] start indeterminate; each is
    assigned before it is read. *)
Definition LP_solver (HIGHS_DIR : string) : TestM unit :=
  let model_iteration_count := {| simplex := 0; ipm := 0; crossover := 0 |} in
  let simplex_strategy_iteration_count :=
    repeat 0 (Z.to_nat kSimplexStrategyNum) in
  when (negb dev_run) (call _ <- setOptionValue "output_flag" (OptBool false) ;; Return tt) ;;;
  let model := "adlittle" in
  let model_file := instance_file HIGHS_DIR model in
  let '(model_iteration_count, simplex_strategy_iteration_count) :=
    testSolversSetup model model_iteration_count simplex_strategy_iteration_count in
  call read_status <- readModel model_file ;;
  require 276 that (read_status ==s kOk) ;;
  call return_status <- setBasis ;;
  require 279 that (return_status ==s kOk) ;;
  call return_status <- run ;;
  require 282 that (return_status ==s kOk) ;;
  testSolvers model_iteration_count simplex_strategy_iteration_count ;;;
  call return_status <- resetOptions ;;
  require 289 that (return_status ==s kOk) ;;
  when (negb dev_run) (call _ <- setOptionValue "output_flag" (OptBool false) ;; Return tt) ;;;
  let model_file := instance_file HIGHS_DIR "etamacro" in
  call read_status <- readModel model_file ;;
  require 295 that (read_status ==s kOk) ;;
  call return_status <- setBasis ;;
  require 298 that (return_status ==s kOk) ;;
  call return_status <- run ;;
  require 301 that (return_status ==s kOk) ;;
  read info <- getInfo ;;
  require 304 that (num_dual_infeasibilities info =? 0) ;;
  read model_status <- getModelStatus ;;
  require 309 that (model_status ==m kOptimal) ;;
  call read_status <- readModel model_file ;;
  require 312 that (read_status ==s kOk) ;;
  call return_status <- setOptionValue "simplex_scale_strategy" (OptInt 0) ;;
  require 313 that (return_status ==s kOk) ;;
  call return_status <- run ;;
  require 317 that (return_status ==s kOk) ;;
  Return tt.

(** *** The test case dual-objective-upper-bound (lines 336-460) *)

(** [fabs((value - reference) / reference)] in IEEE binary64. *)
Definition relative_error (value reference : float) : float :=
  abs ((value - reference) / reference).

Definition dual_objective_upper_bound (HIGHS_DIR : string) : TestM unit :=
  let min_objective_function_value := (-11.6389290663705)%float in
  let max_objective_function_value := 111.650960689315%float in
  let smaller_min_objective_bound := (-110.0)%float in
  let larger_min_objective_bound := (-45.876)%float in
  let use_max_objective_bound := 150.0%float in
  when (negb dev_run) (call _ <- setOptionValue "output_flag" (OptBool false) ;; Return tt) ;;;
  let filename := instance_file HIGHS_DIR "e226" in
  call status <- readModel filename ;;
  require 357 that (status ==s kOk) ;;
  (* Solve vanilla *)
  call status <- run ;;
  require 362 that (status ==s kOk) ;;
  read model_status <- getModelStatus ;;
  require 365 that (model_status ==m kOptimal) ;;
  read info <- getInfo ;;
  let error := relative_error (objective_function_value info)
                 min_objective_function_value in
  require 370 that (error <? 1e-14)%float ;;
  (* Set the dual objective value upper bound, saving the default *)
  read (status, save_objective_bound) <- getOptionValue_double "objective_bound" ;;
  require 374 that (status ==s kOk) ;;
  call status <- setOptionValue "objective_bound" (OptDouble larger_min_objective_bound) ;;
  require 377 that (status ==s kOk) ;;
  (* Solve again, with presolve *)
  call status <- setBasis ;;
  require 386 that (status ==s kOk) ;;
  call status <- run ;;
  require 389 that (status ==s kOk) ;;
  (* Switch off presolve *)
  call status <- setOptionValue "presolve" (OptString "off") ;;
  require 393 that (status ==s kOk) ;;
  (* The larger bound is met during phase 2 *)
  call status <- clearSolver ;;
  require 403 that (status ==s kOk) ;;
  call status <- run ;;
  require 406 that (status ==s kOk) ;;
  read model_status <- getModelStatus ;;
  require 409 that (model_status ==m kObjectiveBound) ;;
  (* The smaller bound is met at the start of phase 2 *)
  call status <- setOptionValue "objective_bound" (OptDouble smaller_min_objective_bound) ;;
  require 420 that (status ==s kOk) ;;
  call status <- setBasis ;;
  require 423 that (status ==s kOk) ;;
  call status <- run ;;
  require 426 that (status ==s kOk) ;;
  read model_status <- getModelStatus ;;
  require 429 that (model_status ==m kObjectiveBound) ;;
  (* Maximize: the bound is not used *)
  call sense_status <- changeObjectiveSense kMaximize ;;
  let bool_status := sense_status ==s kOk in
  require 435 that bool_status ;;
  call status <- setOptionValue "objective_bound" (OptDouble use_max_objective_bound) ;;
  require 438 that (status ==s kOk) ;;
  call status <- setBasis ;;
  require 448 that (status ==s kOk) ;;
  call status <- run ;;
  require 451 that (status ==s kOk) ;;
  read model_status <- getModelStatus ;;
  require 454 that (model_status ==m kOptimal) ;;
  read info <- getInfo ;;
  let error := relative_error (objective_function_value info)
                 max_objective_function_value in
  require 459 that (error <? 1e-10)%float ;;
  Return tt.

(** *** [testDualObjective] and the test case dual-objective *)

(** [std::max(a, b)] on doubles: [b] when [a < b], else [a]. *)
Definition std_max (a b : float) : float :=
  if (a <? b)%float then b else a.

(** [fabs(primal - dual) / std::max(1.0, fabs(primal))] in IEEE binary64. *)
Definition relative_primal_dual_gap (primal_objective dual_objective : float)
  : float :=
  (abs (primal_objective - dual_objective) / std_max 1.0 (abs primal_objective))%float.

(** [void testDualObjective(const std::string model)] (lines 13-31); it
    constructs a [Highs] object of its own. *)
Definition testDualObjective (HIGHS_DIR model : string) : TestM unit :=
  call _ <- setOptionValue "output_flag" (OptBool dev_run) ;;
  let model_file := instance_file HIGHS_DIR model in
  call _ <- readModel model_file ;;
  call return_status <- run ;;
  require 22 that (return_status ==s kOk) ;;
  read (return_status, dual_objective) <- getDualObjectiveValue ;;
  require 25 that (return_status ==s kOk) ;;
  read info <- getInfo ;;
  let primal_objective := objective_function_value info in
  let relative_primal_dual_gap :=
    relative_primal_dual_gap primal_objective dual_objective in
  require 30 that (relative_primal_dual_gap <? 1e-12)%float ;;
  Return tt.

(** [TEST_CASE("dual-objective", "[highs_lp_solver]")] calls
    [testDualObjective] for these models, each on a fresh object. *)
Definition dual_objective_models : list string :=
  ["avgas"; "adlittle"; "etamacro"; "stair"].

(** *** The test case simplex-stats (lines 646-681) *)

(** [simplex_stats] is a reference into the solver (line 650): each
    block of [REQUIRE]s reads the solver as it is at that point. *)
Definition simplex_stats_case (HIGHS_DIR : string) : TestM unit :=
  call _ <- setOptionValue "output_flag" (OptBool dev_run) ;;
  let model_file := instance_file HIGHS_DIR "adlittle" in
  call status <- readModel model_file ;;
  require 654 that (status ==s kOk) ;;
  call status <- run ;;
  require 656 that (status ==s kOk) ;;
  read simplex_stats <- getSimplexStats ;;
  require 657 that (valid simplex_stats) ;;
  require 658 that (iteration_count simplex_stats =? 0) ;;
  require 659 that (num_invert simplex_stats =? 1) ;;
  require 660 that (0 <? last_invert_num_el simplex_stats) ;;
  require 661 that (0 <? last_factored_basis_num_el simplex_stats) ;;
  require 662 that (col_aq_density simplex_stats =? 0)%float ;;
  require 663 that (row_ep_density simplex_stats =? 0)%float ;;
  require 664 that (row_ap_density simplex_stats =? 0)%float ;;
  require 665 that (row_DSE_density simplex_stats =? 0)%float ;;
  call _ <- clearSolver ;;
  call _ <- setOptionValue "presolve" (OptString "off") ;;
  call status <- run ;;
  require 670 that (status ==s kOk) ;;
  read simplex_stats <- getSimplexStats ;;
  require 671 that (valid simplex_stats) ;;
  require 672 that (0 <? iteration_count simplex_stats) ;;
  require 673 that (0 <? num_invert simplex_stats) ;;
  require 674 that (0 <? last_invert_num_el simplex_stats) ;;
  require 675 that (0 <? last_factored_basis_num_el simplex_stats) ;;
  require 676 that (0 <? col_aq_density simplex_stats)%float ;;
  require 677 that (0 <? row_ep_density simplex_stats)%float ;;
  require 678 that (0 <? row_ap_density simplex_stats)%float ;;
  require 679 that (0 <? row_DSE_density simplex_stats)%float ;;
  Return tt.

(** *** The test case use_warm_start (lines 683-696) *)

Definition use_warm_start_case (HIGHS_DIR : string) : TestM unit :=
  call _ <- setOptionValue "output_flag" (OptBool dev_run) ;;
  let model_file := instance_file HIGHS_DIR "avgas" in
  call status <- readModel model_file ;;
  require 688 that (status ==s kOk) ;;
  call _ <- run ;;
  read info <- getInfo ;;
  let required_iteration_count := simplex_iteration_count info in
  call _ <- setOptionValue "use_warm_start" (OptBool false) ;;
  call _ <- run ;;
  read info <- getInfo ;;
  let iteration_count := simplex_iteration_count info in
  require 695 that (iteration_count =? required_iteration_count) ;;
  Return tt.

(** *** A recorded session *)

(** What the read-only member functions show in one solver state. *)
Record Snapshot : Type := mkSnapshot {
  shown_info : HighsInfo;
  shown_model_status : HighsModelStatus;
  shown_run_time : float;
  shown_simplex_stats : HighsSimplexStats;
  shown_dual_objective : float;
  shown_double_option : float;
  shown_int_option : HighsInt
}.

Definition replay_query (R : Type) (q : Query R) (shown : Snapshot) : R :=
  match q in Query R0 return R0 with
  | getInfo => shown_info shown
  | getModelStatus => shown_model_status shown
  | getRunTime => shown_run_time shown
  | getSimplexStats => shown_simplex_stats shown
  | getDualObjectiveValue => (kOk, shown_dual_objective shown)
  | getOptionValue_double _ => (kOk, shown_double_option shown)
  | getOptionValue_int _ => (kOk, shown_int_option shown)
  end.

(** An implementation that replays a recorded session: the script holds,
    for each call still to come, the status it returns and what the solver
    shows afterwards.  Past the end of the script every call is an
    [kError]. *)
Definition replay (fresh : Snapshot) (script : list (HighsStatus * Snapshot))
  : HighsClass := {|
  state := Snapshot * list (HighsStatus * Snapshot);
  construct := (fresh, script);
  query := fun R q s => replay_query R q (fst s);
  command := fun _ s =>
    match snd s with
    | [] => (kError, s)
    | (status, shown) :: rest => (status, (shown, rest))
    end
|}.

Definition info_with (simplex_count ipm_count crossover_count : HighsInt)
  (objective : float) : HighsInfo := {|
  simplex_iteration_count := simplex_count;
  ipm_iteration_count := ipm_count;
  crossover_iteration_count := crossover_count;
  num_primal_infeasibilities := 0;
  max_primal_infeasibility := 0%float;
  sum_primal_infeasibilities := 0%float;
  num_dual_infeasibilities := 0;
  max_dual_infeasibility := 0%float;
  sum_dual_infeasibilities := 0%float;
  objective_function_value := objective;
  max_complementarity_violation := 0%float;
  sum_complementarity_violations := 0%float
|}.

Definition shows (info : HighsInfo) (model_status : HighsModelStatus) : Snapshot := {|
  shown_info := info;
  shown_model_status := model_status;
  shown_run_time := 0%float;
  shown_simplex_stats :=
    mkHighsSimplexStats false 0 0 0 0 0%float 0%float 0%float 0%float;
  shown_dual_objective := objective_function_value info;
  shown_double_option := 0%float;
  shown_int_option := 0
|}.

Definition idle : Snapshot := shows (info_with 0 0 0 0%float) kNotSet.

(** A session of [dual_objective_upper_bound]: the sixteen calls in
    order. *)
Definition e226_session : list (HighsStatus * Snapshot) :=
  let optimal_min := shows (info_with 0 0 0 (-11.6389290663705)%float) kOptimal in
  let bounded := shows (info_with 0 0 0 (-45.876)%float) kObjectiveBound in
  let optimal_max := shows (info_with 0 0 0 111.650960689315%float) kOptimal in
  [ (kOk, idle);          (* setOptionValue output_flag *)
    (kOk, idle);          (* readModel *)
    (kOk, optimal_min);   (* run *)
    (kOk, optimal_min);   (* setOptionValue objective_bound *)
    (kOk, idle);          (* setBasis *)
    (kOk, bounded);       (* run *)
    (kOk, bounded);       (* setOptionValue presolve *)
    (kOk, idle);          (* clearSolver *)
    (kOk, bounded);       (* run *)
    (kOk, bounded);       (* setOptionValue objective_bound *)
    (kOk, idle);          (* setBasis *)
    (kOk, bounded);       (* run *)
    (kOk, bounded);       (* changeObjectiveSense *)
    (kOk, bounded);       (* setOptionValue objective_bound *)
    (kOk, idle);          (* setBasis *)
    (kOk, optimal_max) ]. (* run *)

(** A session of [testSolver "ipm"] with counts 13 and 2: the seven
    calls in order. *)
Definition ipm_session : list (HighsStatus * Snapshot) :=
  let solved := shows (info_with 0 13 2 0%float) kOptimal in
  let stopped_at n := shows (info_with 0 n 0 0%float) kIterationLimit in
  [ (kOk, idle);              (* setOptionValue output_flag *)
    (kOk, idle);              (* setOptionValue solver *)
    (kOk, solved);            (* run *)
    (kOk, solved);            (* setOptionValue time_limit *)
    (kOk, solved);            (* setOptionValue ipm_iteration_limit 0 *)
    (kWarning, stopped_at 0); (* run *)
    (kOk, stopped_at 0);      (* setOptionValue ipm_iteration_limit 5 *)
    (kWarning, stopped_at 5); (* run *)
    (kOk, stopped_at 5) ].    (* setOptionValue ipm_iteration_limit *)

(** *** The objective check of [testStandardForm] (lines 573-578) *)

(** [fabs(objective_function_value - required_objective_function_value) /
    std::max(1.0, fabs(required_objective_function_value))] in IEEE
    binary64 (lines 575-577). *)
Definition objective_difference
  (objective_function_value required_objective_function_value : float) : float :=
  (abs (objective_function_value - required_objective_function_value)
   / std_max 1.0 (abs required_objective_function_value))%float.

(** *** The test case dual-objective (lines 523-528) *)

(** Four calls of [testDualObjective], each on a [Highs] object of its
    own.  A [REQUIRE] that does not hold ends the test case, so the test
    case passes when every call does. *)
Definition dual_objective (HIGHS_DIR : string) : list (TestM unit) :=
  map (testDualObjective HIGHS_DIR) dual_objective_models.

(** *** The calls of an execution *)

(** The member functions an execution calls on the solver, the read-only
    ones apart, oldest first. *)
Fixpoint calls (H : HighsClass) {A : Type} (t : TestM A) (s : state H)
  : list Command :=
  match t with
  | Return _ => []
  | RequireFailed _ => []
  | Ask q k => calls H (k (query H q s)) s
  | Invoke c k =>
      c :: calls H (k (fst (command H c s))) (snd (command H c s))
  end.

(** [c] does not set the option [simplex_strategy], or it sets it to an
    integer among [allowed]. *)
Definition selects_only (allowed : HighsInt -> Prop) (c : Command) : Prop :=
  forall value, c = setOptionValue "simplex_strategy" value ->
    exists v, value = OptInt v /\ allowed v.

(** The calls that discard what an earlier solve left behind: a model is
    read, or the basis or the solver is cleared. *)
Definition is_reset (c : Command) : bool :=
  match c with
  | readModel _ | setBasis | clearSolver => true
  | _ => false
  end.

(** Every [run()] among [cs] comes after a call that [is_reset], made
    since the [run()] before it; [reset] tells whether one was made before
    [cs]. *)
Fixpoint runs_start_cold (reset : bool) (cs : list Command) : bool :=
  match cs with
  | [] => true
  | c :: cs' =>
      match c with
      | run => reset && runs_start_cold false cs'
      | _ => runs_start_cold (reset || is_reset c) cs'
      end
  end.

(** *** Options as a store *)

(** [c] may assign the option [key]. *)
Definition assigns (c : Command) (key : string) : bool :=
  match c with
  | setOptionValue k _ => (k =? key)%string
  | resetOptions => true
  | _ => false
  end.

(** An implementation whose integer and double options behave as a store:
    a [setOptionValue] that returns [kOk] is read back by [getOptionValue],
    and a call that does not assign an option leaves its value as it
    was. *)
Record option_store (H : HighsClass) : Prop := mkOptionStore {
  int_option_set : forall key v s,
    fst (command H (setOptionValue key (OptInt v)) s) = kOk ->
    query H (getOptionValue_int key)
      (snd (command H (setOptionValue key (OptInt v)) s)) = (kOk, v);
  double_option_set : forall key v s,
    fst (command H (setOptionValue key (OptDouble v)) s) = kOk ->
    query H (getOptionValue_double key)
      (snd (command H (setOptionValue key (OptDouble v)) s)) = (kOk, v);
  int_option_kept : forall c key s,
    assigns c key = false ->
    query H (getOptionValue_int key) (snd (command H c s))
    = query H (getOptionValue_int key) s;
  double_option_kept : forall c key s,
    assigns c key = false ->
    query H (getOptionValue_double key) (snd (command H c s))
    = query H (getOptionValue_double key) s
}.

(** *** The three runs of [testSolver] *)

(** What the [REQUIRE]s of [testSolver] ask of its runs: the first
    returns [kOk] with the expected iteration counts, the second and the
    third return [kWarning] with [kIterationLimit], after no iteration and
    after 10 (simplex) or 5 (interior point) of them. *)
Definition limit_test_runs (H : HighsClass) (use_simplex : bool)
  (counts : IterationCount) (rs : list (HighsStatus * state H)) : Prop :=
  exists s1 s2 s3,
    rs = [(kOk, s1); (kWarning, s2); (kWarning, s3)]
    /\ model_status_of H s2 = kIterationLimit
    /\ model_status_of H s3 = kIterationLimit
    /\ (if use_simplex
        then simplex_iteration_count (query H getInfo s1) = simplex counts
             /\ simplex_iteration_count (query H getInfo s2) = 0
             /\ simplex_iteration_count (query H getInfo s3) = 10
        else ipm_iteration_count (query H getInfo s1) = ipm counts
             /\ crossover_iteration_count (query H getInfo s1) = crossover counts
             /\ ipm_iteration_count (query H getInfo s2) = 0
             /\ ipm_iteration_count (query H getInfo s3) = 5).

(** [model_iteration_count] after line 246 has assigned its member
    [simplex]. *)
Definition with_simplex_count (counts : IterationCount) (n : HighsInt)
  : IterationCount :=
  {| simplex := n; ipm := ipm counts; crossover := crossover counts |}.

(** *** More recorded sessions *)

(** A session of [testSolver "simplex"] with [n] iterations expected: the
    thirteen calls in order. *)
Definition simplex_session (n : HighsInt) : list (HighsStatus * Snapshot) :=
  let solved := shows (info_with n 0 0 0%float) kOptimal in
  let stopped_at k := shows (info_with k 0 0 0%float) kIterationLimit in
  [ (kOk, idle);               (* setOptionValue output_flag *)
    (kOk, idle);               (* setOptionValue solver *)
    (kOk, idle);               (* setOptionValue simplex_strategy *)
    (kOk, idle);               (* clearSolver *)
    (kOk, solved);             (* run *)
    (kOk, solved);             (* setOptionValue time_limit *)
    (kOk, solved);             (* setOptionValue simplex_iteration_limit 0 *)
    (kOk, idle);               (* setBasis *)
    (kWarning, stopped_at 0);  (* run *)
    (kOk, stopped_at 0);       (* setOptionValue simplex_iteration_limit 10 *)
    (kOk, idle);               (* clearSolver *)
    (kWarning, stopped_at 10); (* run *)
    (kOk, stopped_at 10) ].    (* setOptionValue simplex_iteration_limit *)

(** A session of [testSolvers] on adlittle: two simplex strategies, the
    two calls of the strategy that returns early, the interior-point
    solver. *)
Definition testSolvers_session : list (HighsStatus * Snapshot) :=
  (simplex_session 87 ++ simplex_session 87
   ++ [(kOk, idle); (kOk, idle)] ++ ipm_session)%list.

(** A session of the test case LP-solver. *)
Definition adlittle_session : list (HighsStatus * Snapshot) :=
  let optimal := shows (info_with 0 0 0 0%float) kOptimal in
  ([ (kOk, idle);       (* setOptionValue output_flag *)
     (kOk, idle);       (* readModel adlittle *)
     (kOk, idle);       (* setBasis *)
     (kOk, optimal) ]   (* run *)
   ++ testSolvers_session
   ++ [ (kOk, idle);      (* resetOptions *)
        (kOk, idle);      (* setOptionValue output_flag *)
        (kOk, idle);      (* readModel etamacro *)
        (kOk, idle);      (* setBasis *)
        (kOk, optimal);   (* run *)
        (kOk, idle);      (* readModel etamacro *)
        (kOk, idle);      (* setOptionValue simplex_scale_strategy *)
        (kOk, optimal) ]  (* run *))%list.

(** A session of [testDualObjective]: the three calls in order. *)
Definition avgas_session : list (HighsStatus * Snapshot) :=
  [ (kOk, idle);                                          (* setOptionValue *)
    (kOk, idle);                                          (* readModel *)
    (kOk, shows (info_with 0 0 0 (-7.75)%float) kOptimal) ]. (* run *)

(** *** A solver double with an option store *)

(** The options set so far, what the solver shows, and what its runs still
    to come will return and show. *)
Record Desk : Type := mkDesk {
  int_options : string -> HighsInt;
  double_options : string -> float;
  showing : Snapshot;
  to_come : list (HighsStatus * Snapshot)
}.

Definition desk_query (R : Type) (q : Query R) (d : Desk) : R :=
  match q in Query R0 return R0 with
  | getInfo => shown_info (showing d)
  | getModelStatus => shown_model_status (showing d)
  | getRunTime => shown_run_time (showing d)
  | getSimplexStats => shown_simplex_stats (showing d)
  | getDualObjectiveValue => (kOk, shown_dual_objective (showing d))
  | getOptionValue_double key => (kOk, double_options d key)
  | getOptionValue_int key => (kOk, int_options d key)
  end.

Definition desk_command (c : Command) (d : Desk) : HighsStatus * Desk :=
  match c with
  | setOptionValue key (OptInt v) =>
      (kOk,
       mkDesk (fun k => if (k =? key)%string then v else int_options d k)
         (double_options d) (showing d) (to_come d))
  | setOptionValue key (OptDouble v) =>
      (kOk,
       mkDesk (int_options d)
         (fun k => if (k =? key)%string then v else double_options d k)
         (showing d) (to_come d))
  | resetOptions =>
      (kOk, mkDesk (fun _ => 0) (fun _ => 0%float) (showing d) (to_come d))
  | run =>
      match to_come d with
      | [] => (kError, d)
      | (status, shown) :: rest =>
          (status, mkDesk (int_options d) (double_options d) shown rest)
      end
  | _ => (kOk, d)
  end.

(** The double: every option starts at zero, every call but [run()]
    returns [kOk], and the runs replay [session]. *)
Definition desk (session : list (HighsStatus * Snapshot)) : HighsClass := {|
  state := Desk;
  construct := mkDesk (fun _ => 0) (fun _ => 0%float) idle session;
  query := desk_query;
  command := desk_command
|}.

(** The three runs of [testSolver "ipm"] with counts 13 and 2, and the
    five runs of [dual_objective_upper_bound]. *)
Definition ipm_runs : list (HighsStatus * Snapshot) :=
  [ (kOk, shows (info_with 0 13 2 0%float) kOptimal);
    (kWarning, shows (info_with 0 0 0 0%float) kIterationLimit);
    (kWarning, shows (info_with 0 5 0 0%float) kIterationLimit) ].

Definition e226_runs : list (HighsStatus * Snapshot) :=
  let optimal_min := shows (info_with 0 0 0 (-11.6389290663705)%float) kOptimal in
  let bounded := shows (info_with 0 0 0 (-45.876)%float) kObjectiveBound in
  let optimal_max := shows (info_with 0 0 0 111.650960689315%float) kOptimal in
  [ (kOk, optimal_min); (kOk, bounded); (kOk, bounded); (kOk, bounded);
    (kOk, optimal_max) ].

End TestLpSolvers.

(* ===================================================================== *)
(** ** The orchestrator's [run()] and the engines' budgets *)
(* ===================================================================== *)

(** The class [Highs] and both engines are not among the sources.  This
    module follows the written specification: the routing of [run()]
    (section 4.1), the engine state machine and its budget trips (sections
    4.3 and 5), the interior-point loop with crossover (section 4.4) and
    the status a call returns (section 7).  What the specification leaves
    to the implementation (the pivoting, presolve, the choice made for
    the value choose) is a field of [Numerics]; the wall clock is an
    argument of [run]. *)
Module Orchestrator.

Import TestLpSolvers.

Local Open Scope Z_scope.

(** Modelled from the spec: the tagged variant of section 9 over the two
    engines (their classes are not among the sources). *)
Inductive Engine : Type := Simplex | IpmWithCrossover.

(** Modelled from the spec: the values of the options [solver] and
    [presolve] (section 3); the options container is not among the
    sources. *)
Inductive SolverOption : Type := solver_simplex | solver_ipm | solver_choose.
Inductive PresolveOption : Type := presolve_on | presolve_off | presolve_choose.

(** Modelled from the spec: the option keys of section 3 that [run()]
    consults in this model. *)
Record Options : Type := mkOptions {
  solver : SolverOption;
  presolve : PresolveOption;
  simplex_iteration_limit : HighsInt;
  ipm_iteration_limit : HighsInt;
  time_limit : float;
  objective_bound : float;
  use_warm_start : bool
}.

(** Modelled from the spec: the engine-internal state machine of section
    4.3, Idle, Loading, PhaseI, PhaseII, Finished. *)
Inductive Phase : Type := Idle | Loading | PhaseI | PhaseII | Finished.

(** What the numerical kernel decides at a checkpoint: perform one more
    iteration, report that the present stage is complete, or stop with a
    model status of its own (infeasible, unbounded, a solve error). *)
Inductive Decision (Iterate : Type) : Type :=
| Pivot (next : Iterate)
| Complete
| Abandon (why : HighsModelStatus).

Arguments Pivot {Iterate} next.
Arguments Complete {Iterate}.
Arguments Abandon {Iterate} why.

Definition is_pivot {Iterate : Type} (d : Decision Iterate) : bool :=
  match d with
  | Pivot _ => true
  | _ => false
  end.

(** Modelled from the spec: everything the specification treats as
    implementation-defined or as an external collaborator.  [Iterate] is a
    basis with its solution. *)
Record Numerics : Type := mkNumerics {
  Lp : Type;
  Iterate : Type;
  num_col : Lp -> Z;
  sense : Lp -> ObjSense;
  offset : Lp -> float;
  logical_basis : Lp -> Iterate;
  interior_start : Lp -> Iterate;
  presolved : Lp -> Lp;
  postsolved : Lp -> Iterate -> Iterate;
  presolve_by_choice : Lp -> bool;
  engine_by_choice : Lp -> Engine;
  simplex_pivot : Lp -> Phase -> Iterate -> Decision Iterate;
  proves_bound_exceeded : Lp -> float -> Iterate -> bool;
  ipm_iteration : Lp -> Iterate -> Decision Iterate;
  crossover : Lp -> Iterate -> Iterate * HighsInt;
  report : Lp -> option Iterate -> HighsInfo;
  status_by_implementation : HighsModelStatus -> HighsStatus
}.

(** *** A machine under an iteration and a time budget *)

(** Modelled from the spec: the wall clock of section 5, as the engine
    sees it: the run time (in seconds) it reads at its first, second, ...
    checkpoint of one [run()]. *)
Definition Clock : Type := nat -> float.

(** Modelled from the spec: the budgets an engine is given (section 4.1,
    step 5): the iteration limit of the engine and the option
    [time_limit]. *)
Record Budget : Type := mkBudget {
  iteration_budget : HighsInt;
  time_budget : float
}.

(** Modelled from the spec: what the budgets need to see of an engine
    (section 9, [run_within_budget]): whether it has finished and with
    which model status, how many iterations it has performed, whether its
    next transition performs one more, that transition, and the transition
    a budget trip takes. *)
Record Machine : Type := mkMachine {
  machine_state : Type;
  finished : machine_state -> bool;
  ending : machine_state -> HighsModelStatus;
  performed : machine_state -> HighsInt;
  iteration_due : machine_state -> bool;
  advance : machine_state -> machine_state;
  trip : HighsModelStatus -> machine_state -> machine_state
}.

(** "On exceedance" (section 4.3): the clock reads more than the time
    limit. *)
Definition deadline_passed (b : Budget) (reading : float) : bool :=
  (time_budget b <? reading)%float.

(** Modelled from the spec: the checkpoint of section 5.  A finished
    engine stays.  Otherwise the deadline is polled, in every state
    (section 4.3: a budget trip goes to Finished from any state); then the
    iteration budget is polled before the pivot the engine is about to
    perform, and trips when it is spent; otherwise the engine takes its
    own transition.  An engine that needs no further iteration therefore
    ends by itself whatever the iteration limit: restarted on an optimal
    basis it ends with Optimal (the warm-start contract of section
    4.1). *)
Definition checkpoint (M : Machine) (b : Budget) (reading : float)
  (s : machine_state M) : machine_state M :=
  if finished M s then s
  else if deadline_passed b reading then trip M kTimeLimit s
  else if iteration_due M s && (iteration_budget b <=? performed M s)
       then trip M kIterationLimit s
  else advance M s.

Fixpoint checkpoints (M : Machine) (b : Budget) (clock : Clock) (poll : nat)
  (fuel : nat) (s : machine_state M) : machine_state M :=
  match fuel with
  | O => s
  | S fuel' =>
      checkpoints M b clock (S poll) fuel' (checkpoint M b (clock poll) s)
  end.

(** The deadline does not pass at any checkpoint of the run. *)
Definition in_time (b : Budget) (clock : Clock) : Prop :=
  forall poll, deadline_passed b (clock poll) = false.





(** A bound on the checkpoints an unfinished machine still needs: the
    iterations left in the budget plus [slack], the transitions that
    perform no iteration. *)
Definition remaining (M : Machine) (limit : HighsInt)
  (slack : machine_state M -> nat) (s : machine_state M) : nat :=
  Z.to_nat (limit - performed M s) + slack s.

(** *** The simplex engine *)

Record SimplexState (N : Numerics) : Type := mkSimplexState {
  phase : Phase;
  iterate : Iterate N;
  simplex_count : HighsInt;
  outcome : HighsModelStatus
}.

Arguments mkSimplexState {N} phase iterate simplex_count outcome.
Arguments phase {N} _.
Arguments iterate {N} _.
Arguments simplex_count {N} _.
Arguments outcome {N} _.

Definition simplex_finish {N : Numerics} (e : SimplexState N)
  (why : HighsModelStatus) : SimplexState N :=
  mkSimplexState Finished (iterate e) (simplex_count e) why.

Definition simplex_enter {N : Numerics} (e : SimplexState N) (p : Phase)
  : SimplexState N :=
  mkSimplexState p (iterate e) (simplex_count e) (outcome e).

Definition simplex_pivoted {N : Numerics} (e : SimplexState N)
  (next : Iterate N) : SimplexState N :=
  mkSimplexState (phase e) next (simplex_count e + 1) (outcome e).

(** The transitions without a pivot still ahead of a simplex engine. *)
Definition phase_slack (p : Phase) : nat :=
  match p with
  | Idle => 4
  | Loading => 3
  | PhaseI => 2
  | PhaseII => 1
  | Finished => 0
  end.

Definition is_finished (p : Phase) : bool :=
  match p with Finished => true | _ => false end.

Definition is_minimize (s : ObjSense) : bool :=
  match s with kMinimize => true | kMaximize => false end.

(** Modelled from the spec: the objective bound stops a minimization
    whose dual objective is proved to exceed it (section 4.2). *)
Definition bound_exceeded (N : Numerics) (lp : Lp N) (bound : float)
  (it : Iterate N) : bool :=
  is_minimize (sense N lp) && proves_bound_exceeded N lp bound it.

(** Modelled from the spec: one transition of the state machine of
    section 4.3.  The objective bound is looked at in PhaseII only, at its
    entry and before every pivot, and only for minimization (section
    4.2). *)
Definition simplex_advance (N : Numerics) (lp : Lp N) (bound : float)
  (e : SimplexState N) : SimplexState N :=
  match phase e with
  | Idle => simplex_enter e Loading
  | Loading => simplex_enter e PhaseI
  | PhaseI =>
      match simplex_pivot N lp PhaseI (iterate e) with
      | Pivot next => simplex_pivoted e next
      | Complete => simplex_enter e PhaseII
      | Abandon why => simplex_finish e why
      end
  | PhaseII =>
      if bound_exceeded N lp bound (iterate e)
      then simplex_finish e kObjectiveBound
      else
        match simplex_pivot N lp PhaseII (iterate e) with
        | Pivot next => simplex_pivoted e next
        | Complete => simplex_finish e kOptimal
        | Abandon why => simplex_finish e why
        end
  | Finished => e
  end.

(** The transition [simplex_advance] is about to take is a pivot. *)
Definition simplex_iteration_due (N : Numerics) (lp : Lp N) (bound : float)
  (e : SimplexState N) : bool :=
  match phase e with
  | PhaseI => is_pivot (simplex_pivot N lp PhaseI (iterate e))
  | PhaseII =>
      negb (bound_exceeded N lp bound (iterate e))
      && is_pivot (simplex_pivot N lp PhaseII (iterate e))
  | _ => false
  end.

Definition simplex_machine (N : Numerics) (lp : Lp N) (bound : float) : Machine := {|
  machine_state := SimplexState N;
  finished := fun e => is_finished (phase e);
  ending := outcome;
  performed := simplex_count;
  iteration_due := simplex_iteration_due N lp bound;
  advance := simplex_advance N lp bound;
  trip := fun why e => simplex_finish e why
|}.

Definition simplex_start {N : Numerics} (start : Iterate N) : SimplexState N :=
  mkSimplexState Idle start 0 kNotSet.

(** Checkpoints enough for any run: at most [limit] pivots, four
    transitions without a pivot and the checkpoint that trips. *)
Definition simplex_fuel (limit : HighsInt) : nat := Z.to_nat limit + 5.

(** Where the simplex engine would finish with [kOptimal]: the bound is
    not proved exceeded and Phase II is complete. *)
Definition optimal_here (N : Numerics) (lp : Lp N) (bound : float)
  (it : Iterate N) : Prop :=
  bound_exceeded N lp bound it = false
  /\ simplex_pivot N lp PhaseII it = Complete.

(** An invariant of the budgeted simplex run: only a finished engine
    carries [kOptimal], and it carries it only where Phase II is
    complete. *)
Definition optimal_only_when_settled (N : Numerics) (lp : Lp N) (bound : float)
  (e : SimplexState N) : Prop :=
  (phase e <> Finished -> outcome e <> kOptimal)
  /\ (outcome e = kOptimal -> optimal_here N lp bound (iterate e)).

(** *** The interior-point engine with crossover *)

Record IpmState (N : Numerics) : Type := mkIpmState {
  ipm_done : bool;
  ipm_iterate : Iterate N;
  ipm_count : HighsInt;
  crossover_count : HighsInt;
  ipm_outcome : HighsModelStatus
}.

Arguments mkIpmState {N} ipm_done ipm_iterate ipm_count crossover_count ipm_outcome.
Arguments ipm_done {N} _.
Arguments ipm_iterate {N} _.
Arguments ipm_count {N} _.
Arguments crossover_count {N} _.
Arguments ipm_outcome {N} _.

Definition ipm_finish {N : Numerics} (e : IpmState N) (why : HighsModelStatus)
  : IpmState N :=
  mkIpmState true (ipm_iterate e) (ipm_count e) (crossover_count e) why.

(** Modelled from the spec: section 4.4.  Interior iterations until the
    kernel reports convergence; on convergence the crossover builds the
    basic solution and reports its own iteration count. *)
Definition ipm_advance (N : Numerics) (lp : Lp N) (e : IpmState N) : IpmState N :=
  match ipm_iteration N lp (ipm_iterate e) with
  | Pivot next =>
      mkIpmState false next (ipm_count e + 1) (crossover_count e) (ipm_outcome e)
  | Complete =>
      mkIpmState true (fst (crossover N lp (ipm_iterate e))) (ipm_count e)
        (snd (crossover N lp (ipm_iterate e))) kOptimal
  | Abandon why => ipm_finish e why
  end.

Definition ipm_machine (N : Numerics) (lp : Lp N) : Machine := {|
  machine_state := IpmState N;
  finished := ipm_done;
  ending := ipm_outcome;
  performed := ipm_count;
  iteration_due := fun e => is_pivot (ipm_iteration N lp (ipm_iterate e));
  advance := ipm_advance N lp;
  trip := fun why e => ipm_finish e why
|}.

Definition ipm_start {N : Numerics} (start : Iterate N) : IpmState N :=
  mkIpmState false start 0 0 kNotSet.

Definition ipm_slack {N : Numerics} (e : IpmState N) : nat :=
  if ipm_done e then 0 else 1.

Definition ipm_fuel (limit : HighsInt) : nat := Z.to_nat limit + 2.

(** *** The iterates an engine goes through *)





(** *** [run()] *)

(** What an engine hands back to the orchestrator. *)
Record EngineResult (N : Numerics) : Type := mkEngineResult {
  result_iterate : Iterate N;
  result_simplex_iterations : HighsInt;
  result_ipm_iterations : HighsInt;
  result_crossover_iterations : HighsInt;
  result_status : HighsModelStatus
}.

Arguments mkEngineResult {N} _ _ _ _ _.
Arguments result_iterate {N} _.
Arguments result_simplex_iterations {N} _.
Arguments result_ipm_iterations {N} _.
Arguments result_crossover_iterations {N} _.
Arguments result_status {N} _.

Definition iteration_limit (engine : Engine) (o : Options) : HighsInt :=
  match engine with
  | Simplex => simplex_iteration_limit o
  | IpmWithCrossover => ipm_iteration_limit o
  end.

(** The active budgets of [engine] (step 5). *)
Definition budget_of (engine : Engine) (o : Options) : Budget :=
  mkBudget (iteration_limit engine o) (time_limit o).

(** Modelled from the spec: step 5 of the routing, the engine run within
    the active iteration and time budgets. *)
Definition run_engine (N : Numerics) (engine : Engine) (lp : Lp N) (o : Options)
  (clock : Clock) (start : Iterate N) : EngineResult N :=
  match engine with
  | Simplex =>
      let e := checkpoints (simplex_machine N lp (objective_bound o))
                 (budget_of Simplex o) clock 0
                 (simplex_fuel (simplex_iteration_limit o))
                 (simplex_start start) in
      mkEngineResult (iterate e) (simplex_count e) 0 0 (outcome e)
  | IpmWithCrossover =>
      let e := checkpoints (ipm_machine N lp) (budget_of IpmWithCrossover o)
                 clock 0 (ipm_fuel (ipm_iteration_limit o)) (ipm_start start) in
      mkEngineResult (ipm_iterate e) 0 (ipm_count e) (crossover_count e)
        (ipm_outcome e)
  end.

(** Modelled from the spec: what the orchestrator owns (section 3,
    Ownership): the model, the options, the current basis with its
    solution when a valid one exists, and what the last run recorded. *)
Record Solver (N : Numerics) : Type := mkSolver {
  model : Lp N;
  options : Options;
  basis : option (Iterate N);
  info : HighsInfo;
  model_status : HighsModelStatus
}.

Arguments mkSolver {N} _ _ _ _ _.
Arguments model {N} _.
Arguments options {N} _.
Arguments basis {N} _.
Arguments info {N} _.
Arguments model_status {N} _.

(** The basis a warm start would reuse (step 4). *)
Definition warm_basis {N : Numerics} (h : Solver N) : option (Iterate N) :=
  if use_warm_start (options h) then basis h else None.

(** Modelled from the spec: step 2, load-or-skip presolve per the option
    [presolve]. *)
Definition presolve_runs {N : Numerics} (h : Solver N) : bool :=
  match presolve (options h) with
  | presolve_on => true
  | presolve_off => false
  | presolve_choose => presolve_by_choice N (model h)
  end.

(** Modelled from the spec: step 3, the engine selected by the option
    [solver]; for choose, simplex when a warm basis is reused. *)
Definition select_engine {N : Numerics} (h : Solver N) : Engine :=
  match solver (options h) with
  | solver_simplex => Simplex
  | solver_ipm => IpmWithCrossover
  | solver_choose =>
      match warm_basis h with
      | Some _ => Simplex
      | None => engine_by_choice N (model h)
      end
  end.

(** The LP the engine works on. *)
Definition engine_lp {N : Numerics} (h : Solver N) : Lp N :=
  if presolve_runs h then presolved N (model h) else model h.

(** Modelled from the spec: step 4, the starting basis. *)
Definition starting_basis {N : Numerics} (h : Solver N) : Iterate N :=
  match warm_basis h with
  | Some b => b
  | None => logical_basis N (engine_lp h)
  end.

(** Where [engine] starts.  The simplex engine starts from the starting
    basis.  The interior-point engine starts from a point of its own, not
    from a basis: [testSolver] runs it under the iteration limit 0 right
    after its run to optimality, without resetting the basis, and requires
    that run to stop at the limit (TestLpSolvers.cpp, lines 145-163). *)
Definition engine_start {N : Numerics} (h : Solver N) (engine : Engine)
  : Iterate N :=
  match engine with
  | Simplex => starting_basis h
  | IpmWithCrossover => interior_start N (engine_lp h)
  end.

(** Modelled from the spec: the status of a call that ends with a given
    model status (section 7): errors are [kError], a time or iteration
    limit is [kWarning].  For [kObjectiveBound] the model follows the
    checks of TestLpSolvers.cpp (lines 405-409 and 425-429), which
    require [kOk]. *)
Definition status_of_run (N : Numerics) (m : HighsModelStatus) : HighsStatus :=
  match m with
  | kOptimal => kOk
  | kObjectiveBound => kOk
  | kTimeLimit | kIterationLimit => kWarning
  | kLoadError | kModelError | kPresolveError | kSolveError | kPostsolveError =>
      kError
  | other => status_by_implementation N other
  end.

(** The snapshot recorded in step 7: the kernel's report with the
    iteration counts of this run. *)
Definition with_counts (i : HighsInfo) (simplex_n ipm_n crossover_n : HighsInt)
  : HighsInfo := {|
  simplex_iteration_count := simplex_n;
  ipm_iteration_count := ipm_n;
  crossover_iteration_count := crossover_n;
  num_primal_infeasibilities := num_primal_infeasibilities i;
  max_primal_infeasibility := max_primal_infeasibility i;
  sum_primal_infeasibilities := sum_primal_infeasibilities i;
  num_dual_infeasibilities := num_dual_infeasibilities i;
  max_dual_infeasibility := max_dual_infeasibility i;
  sum_dual_infeasibilities := sum_dual_infeasibilities i;
  objective_function_value := objective_function_value i;
  max_complementarity_violation := max_complementarity_violation i;
  sum_complementarity_violations := sum_complementarity_violations i
|}.

Definition with_objective (i : HighsInfo) (value : float) : HighsInfo := {|
  simplex_iteration_count := simplex_iteration_count i;
  ipm_iteration_count := ipm_iteration_count i;
  crossover_iteration_count := crossover_iteration_count i;
  num_primal_infeasibilities := num_primal_infeasibilities i;
  max_primal_infeasibility := max_primal_infeasibility i;
  sum_primal_infeasibilities := sum_primal_infeasibilities i;
  num_dual_infeasibilities := num_dual_infeasibilities i;
  max_dual_infeasibility := max_dual_infeasibility i;
  sum_dual_infeasibilities := sum_dual_infeasibilities i;
  objective_function_value := value;
  max_complementarity_violation := max_complementarity_violation i;
  sum_complementarity_violations := sum_complementarity_violations i
|}.

(** Modelled from the spec: the routing of [run()] (section 4.1, steps 1
    to 7).  An empty LP is answered at once, with the offset as its
    objective; otherwise the selected engine runs on the (presolved) LP
    from the starting basis, and its result is recorded. *)
Definition run {N : Numerics} (clock : Clock) (h : Solver N)
  : HighsStatus * Solver N :=
  if num_col N (model h) =? 0 then
    (kOk,
     mkSolver (model h) (options h) (basis h)
       (with_counts
          (with_objective (report N (model h) None) (offset N (model h)))
          0 0 0)
       kOptimal)
  else
    let engine := select_engine h in
    let r := run_engine N engine (engine_lp h) (options h) clock
               (engine_start h engine) in
    let final :=
      if presolve_runs h then postsolved N (model h) (result_iterate r)
      else result_iterate r in
    (status_of_run N (result_status r),
     mkSolver (model h) (options h) (Some final)
       (with_counts (report N (model h) (Some final))
          (result_simplex_iterations r) (result_ipm_iterations r)
          (result_crossover_iterations r))
       (result_status r)).

(** [run()] hands the solve to [engine]: the LP is not empty and the
    routing selects it. *)
Definition delegates_to {N : Numerics} (h : Solver N) (engine : Engine) : Prop :=
  num_col N (model h) <> 0 /\ select_engine h = engine.





(** *** A small instance *)

(** An LP of the instance: its number of columns, and whether it has a
    feasible point. *)
Record Countdown : Type := mkCountdown {
  columns : Z;
  feasible : bool
}.

(** Numerics over counters: an iterate is the number of pivots still
    needed.  On a feasible LP the first stage needs none and the second
    one pivot per unit; on an infeasible LP the first stage pivots down to
    zero and finds the LP infeasible.  The dual objective is proved to
    exceed a negative bound once at most two pivots are left. *)
Definition countdown : Numerics := {|
  Lp := Countdown;
  Iterate := nat;
  num_col := columns;
  sense := fun _ => kMinimize;
  offset := fun _ => 0%float;
  logical_basis := fun lp => Z.to_nat (columns lp);
  interior_start := fun lp => Z.to_nat (columns lp);
  presolved := fun lp => lp;
  postsolved := fun _ b => b;
  presolve_by_choice := fun _ => false;
  engine_by_choice := fun _ => Simplex;
  simplex_pivot := fun lp p b =>
    match p, b with
    | PhaseI, S b' => if feasible lp then Complete else Pivot b'
    | PhaseI, O => if feasible lp then Complete else Abandon kInfeasible
    | PhaseII, S b' => Pivot b'
    | _, _ => Complete
    end;
  proves_bound_exceeded := fun _ bound b => (bound <? 0)%float && (b <=? 2)%nat;
  ipm_iteration := fun _ b =>
    match b with
    | S b' => Pivot b'
    | O => Complete
    end;
  crossover := fun _ b => (b, 2);
  report := fun _ _ => info_with 0 0 0 0%float;
  status_by_implementation := fun _ => kOk
|}.

(** Options with their defaults but for the solver, the iteration limit
    of both engines, the time limit and the objective bound. *)
Definition countdown_options (engine : SolverOption) (limit : HighsInt)
  (seconds bound : float) : Options :=
  mkOptions engine presolve_off limit limit seconds bound true.

Definition countdown_solver (lp : Countdown) (o : Options) (b : option nat)
  (m : HighsModelStatus) : Solver countdown :=
  mkSolver (N := countdown) lp o b (info_with 0 0 0 0%float) m.

(** A feasible LP seven pivots from its optimum, not solved yet, with
    the iteration limit [limit], no time limit and no objective bound. *)
Definition seven_to_go (engine : SolverOption) (limit : HighsInt)
  : Solver countdown :=
  countdown_solver (mkCountdown 7 true)
    (countdown_options engine limit infinity 1e+200%float) None kNotSet.



(** A clock that stands still, and one that reads two seconds from its
    [n]-th reading on. *)
Definition still : Clock := fun _ => 0%float.


(** Setting the iteration limit of both engines between two runs. *)
Definition set_iteration_limit {N : Numerics} (h : Solver N) (limit : HighsInt)
  : Solver N :=
  mkSolver (model h)
    (mkOptions (solver (options h)) (presolve (options h)) limit limit
       (time_limit (options h)) (objective_bound (options h))
       (use_warm_start (options h)))
    (basis h) (info h) (model_status h).

(** Forgetting the basis between two runs, as [setBasis()] without
    argument and [clearSolver()] do. *)
Definition clear_basis {N : Numerics} (h : Solver N) : Solver N :=
  mkSolver (model h) (options h) None (info h) (model_status h).



End Orchestrator.

(* ===================================================================== *)
(** ** IEEE binary64 through its specification *)
(* ===================================================================== *)

(** The checks of TestLpSolvers.cpp compare doubles.  A [float] is read
    through [Prim2SF]; these are the classes of values the proofs about the
    checks tell apart. *)
Module Binary64.

(** Zero or a finite number: neither an infinity nor not-a-number. *)
Definition SFfinite (x : spec_float) : bool :=
  match x with
  | S754_zero _ | S754_finite _ _ _ => true
  | _ => false
  end.

(** The sign bit of [x] is clear, or [x] is not a number. *)
Definition not_negative (x : spec_float) : Prop :=
  match x with
  | S754_zero s | S754_infinity s | S754_finite s _ _ => s = false
  | S754_nan => True
  end.

(** A positive number or plus infinity. *)
Definition positive_denominator (x : spec_float) : Prop :=
  match x with
  | S754_finite false _ _ | S754_infinity false => True
  | _ => False
  end.

(** The double 1.0: 2^52 * 2^-52. *)
Definition one : spec_float := S754_finite false 4503599627370496 (-52).

End Binary64.

(* ===================================================================== *)
(** ** Results on [HighsLp.h] *)
(* ===================================================================== *)

Lemma default_int_members_in_range :
  HighsLp_h.int_range (HighsLp_h.messageLevel HighsLp_h.HighsOptions_default) /\
  HighsLp_h.int_range (HighsLp_h.iterationLimitSimplex HighsLp_h.HighsOptions_default).
Proof. unfold HighsLp_h.int_range; cbn; lia. Qed.

Lemma default_lp_is_minimisation :
  HighsLp_h.sense_ HighsLp_h.HighsLp_default
  = HighsLp_h.objSense_value HighsLp_h.OBJSENSE_MINIMIZE.
Proof. reflexivity. Qed.

(** C9, as stated, fails: the default simplex iteration limit of a fresh
    [HighsOptions] is not at least 10^6. *)
Lemma default_iterationLimitSimplex_below_million :
  ~ (10 ^ 6 <= HighsLp_h.iterationLimitSimplex HighsLp_h.HighsOptions_default).
Proof. cbn. lia. Qed.

(** C9, amended: before any option is set, the simplex iteration limit is
    999999, one short of 10^6 (so it is at least 10^6 - 1, and strictly
    below 10^6). *)
Theorem default_iterationLimitSimplex_value :
  HighsLp_h.iterationLimitSimplex HighsLp_h.HighsOptions_default = 999999 /\
  10 ^ 6 - 1 <= HighsLp_h.iterationLimitSimplex HighsLp_h.HighsOptions_default < 10 ^ 6.
Proof. cbn. split; [reflexivity | lia]. Qed.

(* ===================================================================== *)
(** ** Results on [TestLpSolvers.cpp] *)
(* ===================================================================== *)

Section Checks.

Import TestLpSolvers.

Lemma HighsStatus_eqb_eq (a b : HighsStatus) :
  HighsStatus_eqb a b = true -> a = b.
Proof. destruct a, b; cbn; congruence. Qed.

Lemma HighsModelStatus_eqb_eq (a b : HighsModelStatus) :
  HighsModelStatus_eqb a b = true -> a = b.
Proof. destruct a, b; cbn; congruence. Qed.

(** The table [testSolversSetup] fills in for adlittle. *)
Lemma testSolversSetup_adlittle (counts : IterationCount) :
  testSolversSetup "adlittle" counts (repeat 0 (Z.to_nat kSimplexStrategyNum))
  = ({| simplex := simplex counts; ipm := 13; crossover := 2 |},
     [87; 87; 72; 73; 94]).
Proof. reflexivity. Qed.

(** [testSolvers] calls [testSolver] for the strategies 0, 1 and 2 only
    (the loop stops before [kSimplexStrategyDualMulti]), then for the
    interior-point solver. *)
Lemma testSolvers_calls (counts : IterationCount) (table : list HighsInt) :
  testSolvers counts table
  = (let with_simplex n :=
       {| simplex := n; ipm := ipm counts; crossover := crossover counts |} in
     bind
       (testSolver "simplex" (with_simplex (vector_get table 0)) kSimplexStrategyChoose ;;;
        testSolver "simplex" (with_simplex (vector_get table 1)) kSimplexStrategyDualPlain ;;;
        testSolver "simplex" (with_simplex (vector_get table 2)) kSimplexStrategyDualTasks ;;;
        Return (with_simplex (vector_get table 2)))
       (fun model_iteration_count => testSolver "ipm" model_iteration_count 0))%test.
Proof. reflexivity. Qed.

(** With the simplex solver and strategy [kSimplexStrategyDualTasks],
    [testSolver] sets two options and returns: it never calls [run()]. *)
Lemma testSolver_skips_DualTasks (H : HighsClass) (s : state H)
  (counts : IterationCount) :
  runs (exec H (testSolver "simplex" counts kSimplexStrategyDualTasks) s []) = []
  /\ (verdict (exec H (testSolver "simplex" counts kSimplexStrategyDualTasks) s [])
      = Passed tt
      \/ verdict (exec H (testSolver "simplex" counts kSimplexStrategyDualTasks) s [])
         = Stopped 47).
Proof.
  unfold testSolver, REQUIRE, when. cbn.
  destruct (_ ==s kOk)%test; cbn; auto.
Qed.

End Checks.

(** Symbolic execution of a client program under the hypothesis [Hp] that
    it passed: each [REQUIRE] met on the way holds, since the other branch
    stops the program. *)
Ltac run_program Hp :=
  cbn -[TestLpSolvers.relative_error TestLpSolvers.relative_primal_dual_gap
        PrimFloat.ltb PrimFloat.eqb TestLpSolvers.instance_file Z.eqb Z.ltb]
    in Hp |- *;
  repeat
    (match type of Hp with
     | context [TestLpSolvers.exec _ (if ?b then _ else _) _ _] =>
         let E := fresh "Req" in
         destruct b eqn:E; [ | cbn in Hp; discriminate Hp ]
     | context [TestLpSolvers.exec _ (match ?q with (_, _) => _ end) _ _] =>
         let E := fresh "Ans" in
         destruct q as [? ?] eqn:E
     | context [TestLpSolvers.exec _
                  (TestLpSolvers.bind (if ?b then _ else _) _) _ _] =>
         let E := fresh "Req" in
         destruct b eqn:E; [ | cbn in Hp; discriminate Hp ]
     | context [TestLpSolvers.exec _
                  (TestLpSolvers.bind (match ?q with (_, _) => _ end) _) _ _] =>
         let E := fresh "Ans" in
         destruct q as [? ?] eqn:E
     end;
     cbn -[TestLpSolvers.relative_error TestLpSolvers.relative_primal_dual_gap
           PrimFloat.ltb PrimFloat.eqb TestLpSolvers.instance_file Z.eqb Z.ltb]
       in Hp |- *).

Ltac read_requirements :=
  repeat match goal with
    | E : TestLpSolvers.HighsStatus_eqb _ _ = true |- _ =>
        apply HighsStatus_eqb_eq in E
    | E : TestLpSolvers.HighsModelStatus_eqb _ _ = true |- _ =>
        apply HighsModelStatus_eqb_eq in E
    | E : (_ =? _)%Z = true |- _ => apply Z.eqb_eq in E
    end.

Ltac statuses_of_runs H :=
  repeat match goal with
    | E : fst (TestLpSolvers.command H TestLpSolvers.run _) = _ |- _ =>
        rewrite E; clear E
    end.

Section PassingExecutions.

Import TestLpSolvers.

Variable H : HighsClass.


(** What a passing execution of [testSolver] has seen, for either solver
    (the early return for [kSimplexStrategyDualTasks] apart): three runs.
    The first returns [kOk] with the expected iteration counts and both
    complementarity measures equal to zero; the second, under an iteration
    limit of 0, and the third, under a limit of 10 (simplex) or 5 (IPM),
    return [kWarning] with model status [kIterationLimit] and iteration
    counts 0 and 10 (or 5). *)
Lemma testSolver_requires (s : state H) (solver : string)
  (counts : IterationCount) (strategy : HighsInt) :
  (solver = "simplex" -> strategy <> kSimplexStrategyDualTasks) ->
  passes_from H s (testSolver solver counts strategy) ->
  exists s1 s2 s3,
    runs (exec H (testSolver solver counts strategy) s [])
    = [(kOk, s1); (kWarning, s2); (kWarning, s3)]
    /\ model_status_of H s2 = kIterationLimit
    /\ model_status_of H s3 = kIterationLimit
    /\ (max_complementarity_violation (query H getInfo s1) =? 0)%float = true
    /\ (sum_complementarity_violations (query H getInfo s1) =? 0)%float = true
    /\ (if (solver =? "simplex")%string
        then simplex_iteration_count (query H getInfo s1) = simplex counts
             /\ simplex_iteration_count (query H getInfo s2) = 0
             /\ simplex_iteration_count (query H getInfo s3) = 10
        else ipm_iteration_count (query H getInfo s1) = ipm counts
             /\ crossover_iteration_count (query H getInfo s1) = crossover counts
             /\ ipm_iteration_count (query H getInfo s2) = 0
             /\ ipm_iteration_count (query H getInfo s3) = 5).
Proof.
  unfold passes_from, testSolver, testSolver_from_line_59, time_limit_block,
    REQUIRE, when, model_status_of.
  intros Hs Hp.
  destruct (String.eqb_spec solver "simplex") as [Heq | Hne].
  - destruct (Z.eqb_spec strategy kSimplexStrategyDualTasks) as [E | E];
      [ now elim (Hs Heq) | ].
    run_program Hp. clear Hp. read_requirements.
    do 3 eexists. split; [ statuses_of_runs H; reflexivity | ].
    repeat split; assumption.
  - run_program Hp. clear Hp. read_requirements.
    do 3 eexists. split; [ statuses_of_runs H; reflexivity | ].
    repeat split; assumption.
Qed.

(** What a passing execution of [testDualObjective] has seen: one run
    returning [kOk], after which the relative gap between the primal
    objective and the dual objective value is below 1e-12. *)
Lemma testDualObjective_requires (HIGHS_DIR model : string) :
  passes H (testDualObjective HIGHS_DIR model) ->
  exists s1,
    runs (test_case H (testDualObjective HIGHS_DIR model)) = [(kOk, s1)]
    /\ fst (query H getDualObjectiveValue s1) = kOk
    /\ (relative_primal_dual_gap
          (objective_function_value (query H getInfo s1))
          (snd (query H getDualObjectiveValue s1)) <? 1e-12)%float = true.
Proof.
  unfold passes, test_case, testDualObjective, REQUIRE.
  intros Hp. run_program Hp. clear Hp. read_requirements.
  eexists. split; [ statuses_of_runs H; reflexivity | ].
  match goal with E : query H getDualObjectiveValue _ = _ |- _ => rewrite E end.
  split; assumption.
Qed.

(** What a passing execution of the test case simplex-stats has seen: two
    runs returning [kOk].  After the first the statistics are valid with
    no iteration, one refactorization, positive factor sizes and all four
    densities equal to zero; after the second (solver cleared, presolve
    off) the iteration count, the refactorization count, the factor sizes
    and the four densities are positive. *)
Lemma simplex_stats_case_requires (HIGHS_DIR : string) :
  passes H (simplex_stats_case HIGHS_DIR) ->
  exists s1 s2,
    runs (test_case H (simplex_stats_case HIGHS_DIR)) = [(kOk, s1); (kOk, s2)]
    /\ (let stats := query H getSimplexStats s1 in
        valid stats = true
        /\ iteration_count stats = 0
        /\ num_invert stats = 1
        /\ 0 < last_invert_num_el stats
        /\ 0 < last_factored_basis_num_el stats
        /\ (col_aq_density stats =? 0)%float = true
        /\ (row_ep_density stats =? 0)%float = true
        /\ (row_ap_density stats =? 0)%float = true
        /\ (row_DSE_density stats =? 0)%float = true)
    /\ (let stats := query H getSimplexStats s2 in
        valid stats = true
        /\ 0 < iteration_count stats
        /\ 0 < num_invert stats
        /\ 0 < last_invert_num_el stats
        /\ 0 < last_factored_basis_num_el stats
        /\ (0 <? col_aq_density stats)%float = true
        /\ (0 <? row_ep_density stats)%float = true
        /\ (0 <? row_ap_density stats)%float = true
        /\ (0 <? row_DSE_density stats)%float = true).
Proof.
  unfold passes, test_case, simplex_stats_case, REQUIRE.
  intros Hp. run_program Hp. clear Hp. read_requirements.
  repeat match goal with
    | E : Z.ltb 0 _ = true |- _ => apply Z.ltb_lt in E
    end.
  do 2 eexists. split; [ statuses_of_runs H; reflexivity | ].
  cbn zeta. repeat split; assumption.
Qed.

(** What a passing execution of the test case use_warm_start has seen:
    two runs; the second, made with [use_warm_start] set to [false],
    reports the same simplex iteration count as the first. *)
Lemma use_warm_start_case_requires (HIGHS_DIR : string) :
  passes H (use_warm_start_case HIGHS_DIR) ->
  exists status1 s1 status2 s2,
    runs (test_case H (use_warm_start_case HIGHS_DIR))
    = [(status1, s1); (status2, s2)]
    /\ simplex_iteration_count (query H getInfo s2)
       = simplex_iteration_count (query H getInfo s1).
Proof.
  unfold passes, test_case, use_warm_start_case, REQUIRE.
  intros Hp. run_program Hp. clear Hp. read_requirements.
  do 4 eexists. split; [ reflexivity | assumption ].
Qed.

End PassingExecutions.

(** The recorded sessions pass: both programs can be passed. *)
Lemma e226_session_passes :
  TestLpSolvers.passes
    (TestLpSolvers.replay TestLpSolvers.idle TestLpSolvers.e226_session)
    (TestLpSolvers.dual_objective_upper_bound "HiGHS").
Proof. vm_compute. reflexivity. Qed.

Lemma ipm_session_passes :
  TestLpSolvers.passes_from
    (TestLpSolvers.replay TestLpSolvers.idle TestLpSolvers.e226_session)
    (TestLpSolvers.idle, TestLpSolvers.ipm_session)
    (TestLpSolvers.testSolver "ipm" (TestLpSolvers.mkIterationCount 0 13 2) 0).
Proof. vm_compute. reflexivity. Qed.


(* ===================================================================== *)
(** ** Results on the engines' budgets *)
(* ===================================================================== *)

Section BudgetedMachine.

Import TestLpSolvers Orchestrator.

Variable M : Machine.
Variable b : Budget.
Variable slack : machine_state M -> nat.

Hypothesis trip_finishes : forall why s, finished M (trip M why s) = true.
Hypothesis trip_keeps_count : forall why s,
  performed M (trip M why s) = performed M s.
Hypothesis due_advance : forall s,
  finished M s = false -> iteration_due M s = true ->
  finished M (advance M s) = false
  /\ performed M (advance M s) = performed M s + 1
  /\ slack (advance M s) = slack s.
Hypothesis idle_advance : forall s,
  finished M s = false -> iteration_due M s = false ->
  performed M (advance M s) = performed M s
  /\ (slack (advance M s) < slack s)%nat.

Lemma checkpoints_finished (clock : Clock) (fuel : nat) :
  forall (poll : nat) (s : machine_state M),
    finished M s = true -> checkpoints M b clock poll fuel s = s.
Proof.
  induction fuel as [| fuel IH]; intros poll s Hf; cbn; [reflexivity |].
  unfold checkpoint. rewrite Hf. now apply IH.
Qed.

(** The three ways through a checkpoint of an unfinished machine. *)
Lemma checkpoint_late (reading : float) (s : machine_state M) :
  finished M s = false -> deadline_passed b reading = true ->
  checkpoint M b reading s = trip M kTimeLimit s.
Proof. intros Hf Hd. unfold checkpoint. now rewrite Hf, Hd. Qed.

Lemma checkpoint_spent (reading : float) (s : machine_state M) :
  finished M s = false -> deadline_passed b reading = false ->
  iteration_due M s = true -> iteration_budget b <= performed M s ->
  checkpoint M b reading s = trip M kIterationLimit s.
Proof.
  intros Hf Hd Hi Hl. unfold checkpoint. rewrite Hf, Hd, Hi.
  destruct (Z.leb_spec (iteration_budget b) (performed M s)); [reflexivity | lia].
Qed.

Lemma checkpoint_pivots (reading : float) (s : machine_state M) :
  finished M s = false -> deadline_passed b reading = false ->
  performed M s < iteration_budget b ->
  checkpoint M b reading s = advance M s.
Proof.
  intros Hf Hd Hl. unfold checkpoint. rewrite Hf, Hd.
  destruct (Z.leb_spec (iteration_budget b) (performed M s)); [lia |].
  now rewrite andb_false_r.
Qed.

Lemma checkpoint_idle (reading : float) (s : machine_state M) :
  finished M s = false -> deadline_passed b reading = false ->
  iteration_due M s = false ->
  checkpoint M b reading s = advance M s.
Proof. intros Hf Hd Hi. unfold checkpoint. now rewrite Hf, Hd, Hi. Qed.

Lemma checkpoints_step_idle (clock : Clock) (fuel poll : nat)
  (s : machine_state M) :
  finished M s = false -> deadline_passed b (clock poll) = false ->
  iteration_due M s = false ->
  checkpoints M b clock poll (S fuel) s
  = checkpoints M b clock (S poll) fuel (advance M s).
Proof. intros Hf Hd Hi. cbn. now rewrite checkpoint_idle. Qed.

(** Under its budgets the machine always finishes, within [remaining]
    checkpoints, whatever the clock reads. *)
Lemma checkpoints_total (clock : Clock) (fuel : nat) :
  forall (poll : nat) (s : machine_state M),
    (remaining M (iteration_budget b) slack s < fuel)%nat ->
    finished M (checkpoints M b clock poll fuel s) = true.
Proof.
  induction fuel as [| fuel IH]; intros poll s Hr; [lia |].
  destruct (finished M s) eqn:Hf; [now rewrite checkpoints_finished |].
  cbn [checkpoints].
  destruct (deadline_passed b (clock poll)) eqn:Hd.
  { rewrite checkpoint_late by assumption.
    rewrite checkpoints_finished; apply trip_finishes. }
  destruct (iteration_due M s) eqn:Hi.
  - destruct (Z.leb_spec (iteration_budget b) (performed M s)) as [Hl | Hl].
    + rewrite checkpoint_spent by assumption.
      rewrite checkpoints_finished; apply trip_finishes.
    + rewrite checkpoint_pivots by assumption.
      destruct (due_advance s Hf Hi) as [_ [Hc Hs]].
      apply IH. unfold remaining in *. rewrite Hc, Hs. lia.
  - rewrite checkpoint_idle by assumption.
    destruct (idle_advance s Hf Hi) as [Hc Hs].
    apply IH. unfold remaining in *. rewrite Hc. lia.
Qed.





(** What every transition of the machine and both budget trips keep, the
    budgeted run keeps. *)
Lemma checkpoints_keep (P : machine_state M -> Prop) (clock : Clock) :
  (forall s, finished M s = false -> P s -> P (advance M s)) ->
  (forall s, finished M s = false -> P s -> P (trip M kTimeLimit s)) ->
  (forall s, finished M s = false -> P s -> P (trip M kIterationLimit s)) ->
  forall (fuel poll : nat) (s : machine_state M),
    P s -> P (checkpoints M b clock poll fuel s).
Proof.
  intros Ha Ht Hi.
  induction fuel as [| fuel IH]; intros poll s Hs; cbn; [assumption |].
  apply IH. unfold checkpoint.
  destruct (finished M s) eqn:Hf; [assumption |].
  destruct (deadline_passed b (clock poll)); [now apply Ht |].
  destruct (iteration_due M s && Z.leb (iteration_budget b) (performed M s));
    [now apply Hi | now apply Ha].
Qed.

End BudgetedMachine.




Section Engines.

Import TestLpSolvers Orchestrator.

Variable N : Numerics.
Variable lp : Lp N.
Variable o : Options.

Let SM := simplex_machine N lp (objective_bound o).
Let IM := ipm_machine N lp.
Let sb := budget_of Simplex o.
Let ib := budget_of IpmWithCrossover o.

Lemma simplex_due_advance (e : machine_state SM) :
  finished SM e = false -> iteration_due SM e = true ->
  finished SM (advance SM e) = false
  /\ performed SM (advance SM e) = performed SM e + 1
  /\ phase_slack (phase (advance SM e)) = phase_slack (phase e).
Proof.
  destruct e as [p it n oc]. cbn.
  unfold simplex_iteration_due, simplex_advance. cbn.
  destruct p; cbn; try discriminate; intros _.
  - destruct (simplex_pivot N lp PhaseI it); cbn; try discriminate. auto.
  - destruct (bound_exceeded N lp (objective_bound o) it); cbn; try discriminate.
    destruct (simplex_pivot N lp PhaseII it); cbn; try discriminate. auto.
Qed.

Lemma simplex_idle_advance (e : machine_state SM) :
  finished SM e = false -> iteration_due SM e = false ->
  performed SM (advance SM e) = performed SM e
  /\ (phase_slack (phase (advance SM e)) < phase_slack (phase e))%nat.
Proof.
  destruct e as [p it n oc]. cbn.
  unfold simplex_iteration_due, simplex_advance. cbn.
  destruct p; cbn; try discriminate; intros _.
  - auto.
  - auto.
  - destruct (simplex_pivot N lp PhaseI it); cbn; try discriminate; auto.
  - destruct (bound_exceeded N lp (objective_bound o) it); cbn; auto.
    destruct (simplex_pivot N lp PhaseII it); cbn; try discriminate; auto.
Qed.

Lemma ipm_due_advance (e : machine_state IM) :
  finished IM e = false -> iteration_due IM e = true ->
  finished IM (advance IM e) = false
  /\ performed IM (advance IM e) = performed IM e + 1
  /\ ipm_slack (advance IM e) = ipm_slack e.
Proof.
  destruct e as [d it n c oc]. cbn. unfold ipm_advance, ipm_slack. cbn.
  intros ->. destruct (ipm_iteration N lp it); cbn; try discriminate. auto.
Qed.

Lemma ipm_idle_advance (e : machine_state IM) :
  finished IM e = false -> iteration_due IM e = false ->
  performed IM (advance IM e) = performed IM e
  /\ (ipm_slack (advance IM e) < ipm_slack e)%nat.
Proof.
  destruct e as [d it n c oc]. cbn. unfold ipm_advance, ipm_slack. cbn.
  intros ->. destruct (ipm_iteration N lp it); cbn; try discriminate; auto.
Qed.

(** Both engines always reach [Finished] within their fuel, whatever the
    clock reads. *)
Lemma simplex_run_finishes (clock : Clock) (start : Iterate N) :
  phase (checkpoints SM sb clock 0 (simplex_fuel (simplex_iteration_limit o))
           (simplex_start start))
  = Finished.
Proof.
  assert (finished SM (checkpoints SM sb clock 0
                         (simplex_fuel (simplex_iteration_limit o))
                         (simplex_start start)) = true) as Hf.
  { apply (checkpoints_total SM sb (fun e => phase_slack (phase e))).
    - reflexivity.
    - apply simplex_due_advance.
    - apply simplex_idle_advance.
    - unfold remaining, simplex_fuel. cbn. lia. }
  cbn in Hf. destruct (phase _); try discriminate Hf. reflexivity.
Qed.

Lemma ipm_run_finishes (clock : Clock) (start : Iterate N) :
  ipm_done (checkpoints IM ib clock 0 (ipm_fuel (ipm_iteration_limit o))
              (ipm_start start))
  = true.
Proof.
  apply (checkpoints_total IM ib ipm_slack).
  - reflexivity.
  - apply ipm_due_advance.
  - apply ipm_idle_advance.
  - unfold remaining, ipm_fuel. cbn. lia.
Qed.







End Engines.

(** *** Restarting the simplex engine where it stopped *)

Section WarmRestart.

Import TestLpSolvers Orchestrator.

Variable N : Numerics.
Variable lp : Lp N.
Variable o : Options.

Let SM := simplex_machine N lp (objective_bound o).
Let sb := budget_of Simplex o.

(** The kernel keeps [kOptimal] for the iterates at which Phase II is
    complete. *)
Hypothesis abandons_otherwise : forall p it,
  simplex_pivot N lp p it <> Abandon kOptimal.

Lemma advance_keeps_settled (e : SimplexState N) :
  is_finished (phase e) = false ->
  optimal_only_when_settled N lp (objective_bound o) e ->
  optimal_only_when_settled N lp (objective_bound o)
    (simplex_advance N lp (objective_bound o) e).
Proof.
  intros Hp [Hu Ho]. destruct e as [p it n oc]. cbn in *.
  assert (oc <> kOptimal) as Hne
    by (apply Hu; destruct p; cbn in Hp; congruence).
  unfold simplex_advance, optimal_only_when_settled. cbn.
  destruct p; cbn; try discriminate Hp.
  - split; congruence.
  - split; congruence.
  - destruct (simplex_pivot N lp PhaseI it) eqn:Hk; cbn.
    + split; congruence.
    + split; congruence.
    + pose proof (abandons_otherwise PhaseI it) as Hab. rewrite Hk in Hab.
      split; congruence.
  - destruct (bound_exceeded N lp (objective_bound o) it) eqn:Hb; cbn.
    + split; congruence.
    + destruct (simplex_pivot N lp PhaseII it) eqn:Hk; cbn.
      * split; congruence.
      * split; [congruence | intros _; split; assumption].
      * pose proof (abandons_otherwise PhaseII it) as Hab. rewrite Hk in Hab.
        split; congruence.
Qed.

(** A simplex run that ends with [kOptimal] ends where Phase II is
    complete. *)
Lemma optimal_run_is_settled (clock : Clock) (start : Iterate N) (fuel : nat) :
  let e := checkpoints SM sb clock 0 fuel (simplex_start start) in
  outcome e = kOptimal -> optimal_here N lp (objective_bound o) (iterate e).
Proof.
  intros e He.
  assert (optimal_only_when_settled N lp (objective_bound o) e) as [_ Ho].
  { apply (checkpoints_keep SM sb
             (optimal_only_when_settled N lp (objective_bound o))).
    - intros s Hf Hs. now apply advance_keeps_settled.
    - intros s _ _. split; cbn; congruence.
    - intros s _ _. split; cbn; congruence.
    - split; cbn; congruence. }
  exact (Ho He).
Qed.

(** Restarted where Phase II is complete, an engine whose Phase I is
    complete there too finishes with [kOptimal] without a pivot, whatever
    its iteration limit, while the deadline does not pass. *)
Lemma restart_needs_no_pivot (clock : Clock) (it : Iterate N) :
  in_time sb clock ->
  simplex_pivot N lp PhaseI it = Complete ->
  optimal_here N lp (objective_bound o) it ->
  checkpoints SM sb clock 0 (simplex_fuel (simplex_iteration_limit o))
    (simplex_start it)
  = mkSimplexState Finished it 0 kOptimal.
Proof.
  intros Hq H1 [Hb H2].
  unfold simplex_fuel.
  replace (Z.to_nat (simplex_iteration_limit o) + 5)%nat
    with (S (S (S (S (Z.to_nat (simplex_iteration_limit o) + 1)))))%nat by lia.
  rewrite (checkpoints_step_idle SM sb clock _ 0 (simplex_start it))
    by (reflexivity || apply Hq).
  change (advance SM (simplex_start it))
    with (mkSimplexState (N := N) Loading it 0 kNotSet).
  rewrite (checkpoints_step_idle SM sb clock _ 1
             (mkSimplexState Loading it 0 kNotSet))
    by (reflexivity || apply Hq).
  change (advance SM (mkSimplexState Loading it 0 kNotSet))
    with (mkSimplexState (N := N) PhaseI it 0 kNotSet).
  assert (advance SM (mkSimplexState PhaseI it 0 kNotSet)
          = mkSimplexState PhaseII it 0 kNotSet) as E1.
  { cbn. unfold simplex_advance. cbn. now rewrite H1. }
  assert (advance SM (mkSimplexState PhaseII it 0 kNotSet)
          = mkSimplexState Finished it 0 kOptimal) as E2.
  { cbn. unfold simplex_advance. cbn. now rewrite Hb, H2. }
  rewrite (checkpoints_step_idle SM sb clock _ 2
             (mkSimplexState PhaseI it 0 kNotSet)).
  - rewrite E1.
    rewrite (checkpoints_step_idle SM sb clock _ 3
               (mkSimplexState PhaseII it 0 kNotSet)).
    + rewrite E2. apply (checkpoints_finished SM sb). reflexivity.
    + reflexivity.
    + apply Hq.
    + cbn. unfold simplex_iteration_due. cbn. now rewrite Hb, H2.
  - reflexivity.
  - apply Hq.
  - cbn. unfold simplex_iteration_due. cbn. now rewrite H1.
Qed.

End WarmRestart.

(** What [run()] comes to when it hands the solve to the simplex engine,
    and to the interior-point engine. *)
Lemma run_by_simplex (N : Orchestrator.Numerics) (clock : Orchestrator.Clock)
  (h : Orchestrator.Solver N) :
  Orchestrator.delegates_to h Orchestrator.Simplex ->
  Orchestrator.run clock h
  = (let e := Orchestrator.checkpoints
                (Orchestrator.simplex_machine N (Orchestrator.engine_lp h)
                   (Orchestrator.objective_bound (Orchestrator.options h)))
                (Orchestrator.budget_of Orchestrator.Simplex (Orchestrator.options h))
                clock 0
                (Orchestrator.simplex_fuel
                   (Orchestrator.simplex_iteration_limit (Orchestrator.options h)))
                (Orchestrator.simplex_start
                   (Orchestrator.engine_start h Orchestrator.Simplex)) in
     let final :=
       if Orchestrator.presolve_runs h
       then Orchestrator.postsolved N (Orchestrator.model h) (Orchestrator.iterate e)
       else Orchestrator.iterate e in
     (Orchestrator.status_of_run N (Orchestrator.outcome e),
      Orchestrator.mkSolver (Orchestrator.model h) (Orchestrator.options h)
        (Some final)
        (Orchestrator.with_counts
           (Orchestrator.report N (Orchestrator.model h) (Some final))
           (Orchestrator.simplex_count e) 0 0)
        (Orchestrator.outcome e))).
Proof.
  intros [Hcol Hsel]. unfold Orchestrator.run.
  destruct (Z.eqb_spec (Orchestrator.num_col N (Orchestrator.model h)) 0);
    [contradiction |].
  rewrite Hsel. reflexivity.
Qed.


(** A warm restart, under assumptions the specification does not state:
    with the simplex solver, presolve off and a kernel whose Phase I is
    complete wherever its Phase II is (and which keeps [kOptimal] for
    those iterates), a [run()] that follows a run ending with [kOptimal]
    performs no simplex iteration and ends with [kOptimal] again,
    whatever the iteration limit, while the deadline does not pass. *)
Lemma warm_restart_needs_no_iteration (N : Orchestrator.Numerics)
  (clock clock' : Orchestrator.Clock) (h : Orchestrator.Solver N) :
  Orchestrator.solver (Orchestrator.options h) = Orchestrator.solver_simplex ->
  Orchestrator.presolve (Orchestrator.options h) = Orchestrator.presolve_off ->
  Orchestrator.use_warm_start (Orchestrator.options h) = true ->
  Orchestrator.num_col N (Orchestrator.model h) <> 0 ->
  (forall p it,
     Orchestrator.simplex_pivot N (Orchestrator.model h) p it
     <> Orchestrator.Abandon TestLpSolvers.kOptimal) ->
  (forall it,
     Orchestrator.simplex_pivot N (Orchestrator.model h) Orchestrator.PhaseII it
     = Orchestrator.Complete ->
     Orchestrator.simplex_pivot N (Orchestrator.model h) Orchestrator.PhaseI it
     = Orchestrator.Complete) ->
  Orchestrator.in_time
    (Orchestrator.budget_of Orchestrator.Simplex (Orchestrator.options h)) clock' ->
  Orchestrator.model_status (snd (Orchestrator.run clock h)) = TestLpSolvers.kOptimal ->
  let h' := snd (Orchestrator.run clock h) in
  fst (Orchestrator.run clock' h') = TestLpSolvers.kOk
  /\ Orchestrator.model_status (snd (Orchestrator.run clock' h'))
     = TestLpSolvers.kOptimal
  /\ TestLpSolvers.simplex_iteration_count
       (Orchestrator.info (snd (Orchestrator.run clock' h'))) = 0.
Proof.
  intros Hsolver Hpre Hwarm Hcol Hab Hcoh Hq.
  assert (Orchestrator.delegates_to h Orchestrator.Simplex) as Hd.
  { split; [exact Hcol |]. unfold Orchestrator.select_engine. now rewrite Hsolver. }
  assert (Orchestrator.presolve_runs h = false) as Hno
    by (unfold Orchestrator.presolve_runs; now rewrite Hpre).
  assert (Orchestrator.engine_lp h = Orchestrator.model h) as Hlp
    by (unfold Orchestrator.engine_lp; now rewrite Hno).
  rewrite (run_by_simplex N clock h Hd). cbn zeta.
  cbn [snd Orchestrator.model_status].
  rewrite Hno, Hlp.
  set (e := Orchestrator.checkpoints _ _ _ _ _ _). intros Hopt.
  pose proof (optimal_run_is_settled N (Orchestrator.model h)
                (Orchestrator.options h) Hab clock _ _ Hopt) as Hhere.
  fold e in Hhere.
  set (h' := Orchestrator.mkSolver _ _ _ _ _).
  assert (Orchestrator.delegates_to h' Orchestrator.Simplex) as Hd'.
  { split; [exact Hcol |]. unfold Orchestrator.select_engine. cbn. now rewrite Hsolver. }
  rewrite (run_by_simplex N clock' h' Hd'). cbn zeta.
  assert (Orchestrator.engine_lp h' = Orchestrator.model h) as Hlp'.
  { unfold Orchestrator.engine_lp, Orchestrator.presolve_runs. cbn. now rewrite Hpre. }
  assert (Orchestrator.engine_start h' Orchestrator.Simplex
          = Orchestrator.iterate e) as Hstart.
  { unfold Orchestrator.engine_start, Orchestrator.starting_basis,
      Orchestrator.warm_basis. cbn. now rewrite Hwarm. }
  rewrite Hlp', Hstart. cbn [Orchestrator.options h'].
  rewrite (restart_needs_no_pivot N (Orchestrator.model h) (Orchestrator.options h)
             clock' (Orchestrator.iterate e) Hq (Hcoh _ (proj2 Hhere)) Hhere).
  cbn. auto.
Qed.

(** An empty LP is answered without an engine, whatever the limits and
    the clock. *)
Lemma run_on_empty_lp (N : Orchestrator.Numerics) (clock : Orchestrator.Clock)
  (h : Orchestrator.Solver N) :
  Orchestrator.num_col N (Orchestrator.model h) = 0 ->
  fst (Orchestrator.run clock h) = TestLpSolvers.kOk
  /\ Orchestrator.model_status (snd (Orchestrator.run clock h)) = TestLpSolvers.kOptimal
  /\ TestLpSolvers.objective_function_value
       (Orchestrator.info (snd (Orchestrator.run clock h)))
     = Orchestrator.offset N (Orchestrator.model h)
  /\ TestLpSolvers.simplex_iteration_count
       (Orchestrator.info (snd (Orchestrator.run clock h))) = 0
  /\ TestLpSolvers.ipm_iteration_count
       (Orchestrator.info (snd (Orchestrator.run clock h))) = 0.
Proof.
  intros E. unfold Orchestrator.run. rewrite E. cbn. auto.
Qed.

(** For a maximization the objective bound plays no part in a simplex
    transition. *)
Lemma maximization_ignores_bound (N : Orchestrator.Numerics)
  (lp : Orchestrator.Lp N) (bound bound' : float)
  (e : Orchestrator.SimplexState N) :
  Orchestrator.sense N lp = TestLpSolvers.kMaximize ->
  Orchestrator.simplex_advance N lp bound e
  = Orchestrator.simplex_advance N lp bound' e.
Proof.
  intros Hs. unfold Orchestrator.simplex_advance, Orchestrator.bound_exceeded.
  rewrite Hs. reflexivity.
Qed.


(** *** The runs that end at a limit *)

Section Limits.

Import TestLpSolvers Orchestrator.












(** The instance goes through the limit runs of [testSolver] (lines
    145-194) as the checks require.  The interior-point engine, after its
    run to optimality, stops at the limit 0 without an iteration and at
    the limit 5 after five; the simplex engine does so at the limits 0 and
    3 once the basis is forgotten. *)
Lemma instance_follows_limit_runs :
  (let first := run still (seven_to_go solver_ipm 10) in
   let second := run still (set_iteration_limit (snd first) 0) in
   let third := run still (set_iteration_limit (snd second) 5) in
   (fst first, model_status (snd first)) = (kOk, kOptimal)
   /\ (fst second, model_status (snd second),
       ipm_iteration_count (info (snd second)))
      = (kWarning, kIterationLimit, 0)
   /\ (fst third, model_status (snd third),
       ipm_iteration_count (info (snd third)))
      = (kWarning, kIterationLimit, 5))
  /\ (let first := run still (seven_to_go solver_simplex 10) in
      let second :=
        run still (clear_basis (set_iteration_limit (snd first) 0)) in
      let third :=
        run still (clear_basis (set_iteration_limit (snd second) 3)) in
      (fst first, model_status (snd first)) = (kOk, kOptimal)
      /\ (fst second, model_status (snd second),
          simplex_iteration_count (info (snd second)))
         = (kWarning, kIterationLimit, 0)
      /\ (fst third, model_status (snd third),
          simplex_iteration_count (info (snd third)))
         = (kWarning, kIterationLimit, 3)).
Proof. split; vm_compute; repeat split. Qed.

End Limits.

(* ===================================================================== *)
(** ** Results on the floating-point checks of [TestLpSolvers.cpp] *)
(* ===================================================================== *)

Section Doubles.

Import TestLpSolvers Binary64.

Local Open Scope float_scope.

Lemma SFcompare_refl_finite (s : bool) (m : positive) (e : Z) :
  SFcompare (S754_finite s m e) (S754_finite s m e) = Some Eq.
Proof.
  cbn. rewrite Z.compare_refl.
  change (PosDef.Pos.compare_cont Eq m m) with (Pos.compare m m).
  rewrite Pos.compare_refl. destruct s; reflexivity.
Qed.

Lemma is_finite_spec (x : float) : is_finite x = SFfinite (Prim2SF x).
Proof.
  unfold is_finite, is_nan, is_infinity.
  rewrite !eqb_spec, abs_spec.
  change (Prim2SF infinity) with (S754_infinity false).
  destruct (Prim2SF x) as [s | s | | s m e]; try reflexivity.
  - unfold SFeqb. cbn. destruct s; reflexivity.
  - unfold SFeqb. rewrite SFcompare_refl_finite. reflexivity.
Qed.

Lemma SFltb_leb (x y : spec_float) : SFltb x y = true -> SFleb x y = true.
Proof.
  unfold SFltb, SFleb. destruct (SFcompare x y) as [[| |] |]; congruence.
Qed.

Lemma SFltb_infinity (t : spec_float) : SFltb (S754_infinity false) t = false.
Proof.
  destruct t as [s | s | | s m e]; try reflexivity; destruct s; reflexivity.
Qed.

Lemma SFabs_not_negative (x : spec_float) : not_negative (SFabs x).
Proof. destruct x; cbn; auto. Qed.

Lemma SFfinite_abs (x : spec_float) : SFfinite (SFabs x) = SFfinite x.
Proof. destruct x; reflexivity. Qed.

Lemma positive_denominator_not_negative (x : spec_float) :
  positive_denominator x -> not_negative x.
Proof. destruct x as [s | s | | s m e]; cbn; auto; destruct s; tauto. Qed.

(** Rounding settles the magnitude; the sign is the one it is given. *)
Lemma binary_round_aux_sign (s : bool) (m e : Z) (l : location) :
  match binary_round_aux prec emax s m e l with
  | S754_zero s' | S754_infinity s' | S754_finite s' _ _ => s' = s
  | S754_nan => True
  end.
Proof.
  unfold binary_round_aux.
  destruct (shr_fexp prec emax m e l) as [mrs' e'].
  destruct (shr_fexp prec emax _ e' loc_Exact) as [mrs'' e''].
  destruct (shr_m mrs''); auto.
  destruct (Z.leb _ _); auto.
Qed.

Lemma SFabs_binary_round_aux (s s' : bool) (m e : Z) (l : location) :
  SFabs (binary_round_aux prec emax s m e l)
  = SFabs (binary_round_aux prec emax s' m e l).
Proof.
  unfold binary_round_aux.
  destruct (shr_fexp prec emax m e l) as [mrs' e'].
  destruct (shr_fexp prec emax _ e' loc_Exact) as [mrs'' e''].
  destruct (shr_m mrs''); try reflexivity.
  destruct (Z.leb _ _); reflexivity.
Qed.

Lemma SFabs_binary_normalize_opp (m e : Z) :
  SFabs (binary_normalize prec emax m e false)
  = SFabs (binary_normalize prec emax (- m)%Z e false).
Proof.
  destruct m as [| p | p]; cbn [Z.opp binary_normalize]; try reflexivity;
    unfold binary_round;
    destruct (shl_align _ _ _) as [mz ez]; apply SFabs_binary_round_aux.
Qed.

Lemma SF64div_not_negative (x y : spec_float) :
  not_negative x -> not_negative y -> not_negative (SF64div x y).
Proof.
  destruct x as [sx | sx | | sx mx ex], y as [sy | sy | | sy my ey]; cbn;
    intros; subst; auto.
  destruct (SFdiv_core_binary _ _ _ _ _ _) as [[mz ez] lz].
  apply (binary_round_aux_sign false mz ez lz).
Qed.

(** Nothing that is not negative lies below zero or below a negative
    number. *)
Lemma not_negative_below (x t : spec_float) :
  not_negative x -> SFltb x t = true -> SFltb (S754_zero false) t = true.
Proof.
  unfold SFltb.
  destruct x as [sx | sx | | sx mx ex], t as [st | st | | st mt et]; cbn;
    intros; subst; try discriminate; auto; destruct st; try discriminate; auto.
Qed.

(** A quotient of a number that is not negative by a positive one lies
    below some [t] only if the numerator is finite. *)
Lemma quotient_below_has_finite_numerator (n d t : spec_float) :
  not_negative n -> positive_denominator d ->
  SFltb (SF64div n d) t = true -> SFfinite n = true.
Proof.
  destruct n as [sn | sn | | sn mn en]; try reflexivity;
    destruct d as [sd | sd | | sd md ed]; cbn; try tauto;
    destruct sd; try tauto; intros -> _; cbn;
    rewrite ?SFltb_infinity; discriminate.
Qed.

Lemma SF64sub_finite (x y : spec_float) :
  SFfinite (SF64sub x y) = true -> SFfinite x = true /\ SFfinite y = true.
Proof.
  destruct x as [sx | sx | | sx mx ex], y as [sy | sy | | sy my ey];
    try (split; reflexivity); cbn; try discriminate;
    destruct sx, sy; discriminate.
Qed.

Lemma SF64sub_diag (x : spec_float) :
  SFfinite x = true -> SF64sub x x = S754_zero false.
Proof.
  destruct x as [s | s | | s m e]; try discriminate; intros _.
  - destruct s; reflexivity.
  - unfold SF64sub, SFsub. rewrite Z.sub_diag. reflexivity.
Qed.

Lemma SF64sub_diag_not_finite (x : spec_float) :
  SFfinite x = false -> SF64sub x x = S754_nan.
Proof.
  destruct x as [s | s | | s m e]; try discriminate; intros _; try reflexivity.
  destruct s; reflexivity.
Qed.

Lemma SFabs_SF64sub_swap (x y : spec_float) :
  SFabs (SF64sub x y) = SFabs (SF64sub y x).
Proof.
  destruct x as [sx | sx | | sx mx ex], y as [sy | sy | | sy my ey];
    try reflexivity; try (destruct sx, sy; reflexivity).
  unfold SF64sub, SFsub. rewrite (Z.min_comm ey ex).
  rewrite SFabs_binary_normalize_opp. f_equal. f_equal. lia.
Qed.

(** [fabs(x - y)] and [fabs(y - x)] are the same double. *)
Lemma abs_sub_swap (x y : float) : abs (x - y) = abs (y - x).
Proof.
  apply Prim2SF_inj. rewrite !abs_spec, !sub_spec. apply SFabs_SF64sub_swap.
Qed.

Lemma std_max_one_abs_spec (x : float) :
  Prim2SF (std_max 1 (abs x))
  = if SFltb one (SFabs (Prim2SF x)) then SFabs (Prim2SF x) else one.
Proof.
  unfold std_max. rewrite ltb_spec, abs_spec.
  change (Prim2SF 1) with one.
  destruct (SFltb _ _); [apply abs_spec | reflexivity].
Qed.

Lemma std_max_one_abs_positive (x : float) :
  positive_denominator (Prim2SF (std_max 1 (abs x))).
Proof.
  rewrite std_max_one_abs_spec.
  destruct (Prim2SF x) as [s | s | | s m e]; cbn [SFabs]; try exact I.
  destruct (SFltb _ _); exact I.
Qed.

Lemma relative_primal_dual_gap_spec (p d : float) :
  Prim2SF (relative_primal_dual_gap p d)
  = SF64div (SFabs (SF64sub (Prim2SF p) (Prim2SF d)))
      (Prim2SF (std_max 1 (abs p))).
Proof.
  unfold relative_primal_dual_gap. now rewrite div_spec, abs_spec, sub_spec.
Qed.

Lemma relative_error_spec (v r : float) :
  Prim2SF (relative_error v r)
  = SFabs (SF64div (SF64sub (Prim2SF v) (Prim2SF r)) (Prim2SF r)).
Proof. unfold relative_error. now rewrite abs_spec, div_spec, sub_spec. Qed.

(** A gap below [tol], read through the specification. *)
Lemma relative_primal_dual_gap_below (p d tol : float) :
  (relative_primal_dual_gap p d <? tol) = true ->
  SFfinite (Prim2SF p) = true /\ SFfinite (Prim2SF d) = true
  /\ SFltb (S754_zero false) (Prim2SF tol) = true.
Proof.
  rewrite ltb_spec, relative_primal_dual_gap_spec. intros Hlt.
  pose proof (std_max_one_abs_positive p) as Hd.
  pose proof (SFabs_not_negative (SF64sub (Prim2SF p) (Prim2SF d))) as Hn.
  pose proof (quotient_below_has_finite_numerator _ _ _ Hn Hd Hlt) as Hf.
  rewrite SFfinite_abs in Hf. apply SF64sub_finite in Hf.
  destruct Hf as [Hp Hq]. repeat split; try assumption.
  apply (not_negative_below _ _
           (SF64div_not_negative _ _ Hn (positive_denominator_not_negative _ Hd))
           Hlt).
Qed.

(** The denominator [std::max(1.0, x)] of the relative measures (lines
    29, 519 and 577) is at least 1 whatever [x] is, so it is never zero
    and never not-a-number: [std::max(1.0, NaN)] is 1.0, its first
    argument, whereas [std::max(NaN, 1.0)] is NaN. *)
Theorem std_max_one_is_at_least_one (x : float) :
  (1 <=? std_max 1 x) = true
  /\ std_max 1 nan = 1
  /\ std_max nan 1 = nan.
Proof.
  split; [ | split; reflexivity ].
  unfold std_max. destruct (1 <? x) eqn:E.
  - rewrite leb_spec. rewrite ltb_spec in E. now apply SFltb_leb.
  - reflexivity.
Qed.

(** When the relative primal-dual gap of [testDualObjective] (lines
    27-30; the same expression at lines 517-520) is below a tolerance, the
    primal and the dual objective value are both finite doubles and the
    tolerance is positive: the check cannot pass on an infinity or on
    not-a-number. *)
Theorem gap_check_needs_finite_values (p d tol : float) :
  (relative_primal_dual_gap p d <? tol) = true ->
  is_finite p = true /\ is_finite d = true /\ (0 <? tol) = true.
Proof.
  intros Hlt. rewrite !is_finite_spec, ltb_spec.
  change (Prim2SF 0) with (S754_zero false).
  now apply relative_primal_dual_gap_below.
Qed.

Lemma gap_check_needs_finite_values_witness :
  is_finite (-464.753142857143) = true
  /\ is_finite (-464.7531428571429) = true
  /\ (0 <? 1e-12) = true.
Proof.
  apply (gap_check_needs_finite_values (-464.753142857143)
           (-464.7531428571429) 1e-12).
  vm_compute. reflexivity.
Defined.

(** The relative primal-dual gap of a value with itself is exactly zero
    when the value is finite, and not-a-number otherwise. *)
Theorem gap_of_equal_values (p : float) :
  relative_primal_dual_gap p p = if is_finite p then 0 else nan.
Proof.
  apply Prim2SF_inj.
  rewrite relative_primal_dual_gap_spec, is_finite_spec.
  pose proof (std_max_one_abs_positive p) as Hd.
  destruct (SFfinite (Prim2SF p)) eqn:Hf.
  - rewrite SF64sub_diag by assumption. cbn [SFabs].
    destruct (Prim2SF (std_max 1 (abs p))) as [s | s | | s m e]; cbn in Hd;
      try tauto; destruct s; try tauto; reflexivity.
  - rewrite SF64sub_diag_not_finite by assumption. reflexivity.
Qed.

(** When the relative error of the test case dual-objective-upper-bound
    (lines 367-370 and 456-459) is below a tolerance, the value and the
    reference are finite doubles, the reference is not zero and the
    tolerance is positive: against a reference of zero the check never
    passes. *)
Theorem relative_error_check_needs_nonzero_reference (v r tol : float) :
  (relative_error v r <? tol) = true ->
  is_finite v = true /\ is_finite r = true /\ (r =? 0) = false
  /\ (0 <? tol) = true.
Proof.
  rewrite !ltb_spec, !is_finite_spec, eqb_spec, relative_error_spec.
  change (Prim2SF 0) with (S754_zero false).
  intros Hlt.
  assert (SFltb (S754_zero false) (Prim2SF tol) = true) as Ht
    by (apply (not_negative_below _ _ (SFabs_not_negative _) Hlt)).
  assert (SFfinite (Prim2SF v) = true /\ SFfinite (Prim2SF r) = true
          /\ SFeqb (Prim2SF r) (S754_zero false) = false) as [Hv [Hr Hz]].
  { destruct (Prim2SF tol) as [st | st | | st mt et]; try discriminate Ht;
      destruct st; try discriminate Ht.
    all: destruct (Prim2SF r) as [sr | sr | | sr mr er];
      destruct (Prim2SF v) as [sv | sv | | sv mv ev];
      try (repeat split; try reflexivity; destruct sr; reflexivity).
    all: cbn in Hlt; try discriminate Hlt.
    all: try (destruct sv, sr; discriminate Hlt). }
  auto.
Qed.

Lemma relative_error_check_needs_nonzero_reference_witness :
  is_finite (-11.63892906637051) = true
  /\ is_finite (-11.6389290663705) = true
  /\ (-11.6389290663705 =? 0) = false
  /\ (0 <? 1e-14) = true.
Proof.
  apply (relative_error_check_needs_nonzero_reference (-11.63892906637051)
           (-11.6389290663705) 1e-14).
  vm_compute. reflexivity.
Defined.

(** The relative error of a reference against itself is exactly zero when
    the reference is finite and not zero, and not-a-number otherwise. *)
Theorem relative_error_of_equal_values (r : float) :
  relative_error r r = if is_finite r && negb (r =? 0) then 0 else nan.
Proof.
  apply Prim2SF_inj.
  rewrite relative_error_spec, is_finite_spec, eqb_spec.
  change (Prim2SF 0) with (S754_zero false).
  destruct (SFfinite (Prim2SF r)) eqn:Hf.
  - rewrite SF64sub_diag by assumption.
    destruct (Prim2SF r) as [s | s | | s m e]; try discriminate Hf.
    + reflexivity.
    + destruct s; reflexivity.
  - rewrite SF64sub_diag_not_finite by assumption.
    destruct (Prim2SF r) as [s | s | | s m e]; reflexivity.
Qed.

(** The objective difference of [testStandardForm] (lines 575-577) agrees
    with the relative primal-dual gap of [testDualObjective] (lines 27-29)
    taken with the required value in the place of the primal objective:
    one is not-a-number exactly when the other is, and when they are
    numbers they are the same double.  Which not-a-number a computation
    yields (its sign and payload) is not modelled, and nothing is said
    about it. *)
Theorem objective_difference_is_the_gap (value required : float) :
  is_nan (objective_difference value required)
  = is_nan (relative_primal_dual_gap required value)
  /\ (is_nan (objective_difference value required) = false ->
      objective_difference value required
      = relative_primal_dual_gap required value).
Proof.
  assert (objective_difference value required
          = relative_primal_dual_gap required value) as E.
  { unfold objective_difference, relative_primal_dual_gap.
    now rewrite abs_sub_swap. }
  split.
  - now rewrite E.
  - intros _. exact E.
Qed.

Lemma objective_difference_is_the_gap_witness :
  is_nan (objective_difference 3 2) = false
  /\ objective_difference 3 2 = relative_primal_dual_gap 2 3.
Proof.
  split; [reflexivity |].
  apply (proj2 (objective_difference_is_the_gap 3 2)). reflexivity.
Defined.

End Doubles.

(* ===================================================================== *)
(** ** Results on the executions of the client programs *)
(* ===================================================================== *)

(** Symbolic execution of a client program along every path: at each
    [REQUIRE] both the execution that goes on and the one that stops. *)
Ltac run_anyway :=
  cbn -[TestLpSolvers.relative_error TestLpSolvers.relative_primal_dual_gap
        PrimFloat.ltb PrimFloat.eqb TestLpSolvers.instance_file Z.eqb Z.ltb];
  repeat
    (match goal with
     | |- context [TestLpSolvers.calls _ (if ?b then _ else _) _] => destruct b
     | |- context [TestLpSolvers.calls _ (match ?q with (_, _) => _ end) _] =>
         destruct q as [? ?]
     | |- context [TestLpSolvers.calls _
                     (TestLpSolvers.bind (if ?b then _ else _) _) _] =>
         destruct b
     | |- context [TestLpSolvers.calls _
                     (TestLpSolvers.bind (match ?q with (_, _) => _ end) _) _] =>
         destruct q as [? ?]
     end;
     cbn -[TestLpSolvers.relative_error TestLpSolvers.relative_primal_dual_gap
           PrimFloat.ltb PrimFloat.eqb TestLpSolvers.instance_file Z.eqb Z.ltb]).

Section Executions.

Import TestLpSolvers.

Local Open Scope list_scope.

Variable H : HighsClass.

(** The runs an execution adds do not depend on the runs made before. *)
Lemma exec_log {A : Type} (t : TestM A) : forall s log,
  exec H t s log
  = mkOutcome (verdict (exec H t s [])) (final (exec H t s []))
      (log ++ runs (exec H t s [])).
Proof.
  induction t as [a | line | R q k IH | c k IH]; intros s log; cbn.
  - now rewrite app_nil_r.
  - now rewrite app_nil_r.
  - apply IH.
  - rewrite (IH _ _ (log ++ _)), (IH _ _ (log_run _ _ _)).
    cbn. now rewrite app_assoc.
Qed.

Lemma exec_bind {A B : Type} (t : TestM A) (f : A -> TestM B) : forall s log,
  exec H (bind t f) s log
  = match verdict (exec H t s log) with
    | Passed a => exec H (f a) (final (exec H t s log)) (runs (exec H t s log))
    | Stopped line =>
        mkOutcome (Stopped line) (final (exec H t s log)) (runs (exec H t s log))
    end.
Proof.
  induction t as [a | line | R q k IH | c k IH]; intros s log; cbn;
    try reflexivity; apply IH.
Qed.

Lemma passed_bind {A B : Type} (t : TestM A) (f : A -> TestM B)
  (s : state H) (b : B) :
  verdict (exec H (bind t f) s []) = Passed b ->
  exists a,
    verdict (exec H t s []) = Passed a
    /\ verdict (exec H (f a) (final (exec H t s [])) []) = Passed b
    /\ runs (exec H (bind t f) s [])
       = runs (exec H t s []) ++ runs (exec H (f a) (final (exec H t s [])) [])
    /\ final (exec H (bind t f) s [])
       = final (exec H (f a) (final (exec H t s [])) []).
Proof.
  rewrite exec_bind.
  destruct (verdict (exec H t s [])) as [a | line]; [ | discriminate ].
  rewrite exec_log. cbn. intros Hb. exists a. auto.
Qed.

Lemma calls_bind {A B : Type} (t : TestM A) (f : A -> TestM B) : forall s,
  calls H (bind t f) s
  = calls H t s
    ++ match verdict (exec H t s []) with
       | Passed a => calls H (f a) (final (exec H t s []))
       | Stopped _ => []
       end.
Proof.
  induction t as [a | line | R q k IH | c k IH]; intros s; cbn;
    try reflexivity.
  - apply IH.
  - rewrite IH. f_equal. f_equal.
    rewrite (exec_log (k _) _ (log_run _ _ _)). reflexivity.
Qed.

Lemma HighsModelStatus_eqb_neq (a b : HighsModelStatus) :
  HighsModelStatus_eqb a b = false -> a <> b.
Proof. intros E ->. destruct b; discriminate E. Qed.

(** *** The loop of the time limit block *)

(** The loop of lines 113-117, for every solver and from every state:
    it meets no [REQUIRE], makes at most as many runs as it has rounds,
    and leaves [num_solve] below its bound exactly when one of its runs
    ended with model status [kTimeLimit], which is then how the solver is
    left.  So the [REQUIRE] of line 118 holds exactly when one of the
    [max_num_solve] runs reached the time limit. *)
Theorem solve_until_time_limit_leaves (fuel : nat) (use_simplex : bool) :
  forall (num_solve : HighsInt) (s : state H),
  let o := exec H (solve_until_time_limit fuel use_simplex num_solve) s [] in
  exists k : nat,
    verdict o = Passed (num_solve + Z.of_nat k)
    /\ (k <= fuel)%nat
    /\ length (runs o) = Nat.min (S k) fuel
    /\ ((k < fuel)%nat <->
        exists r, In r (runs o) /\ model_status_of H (snd r) = kTimeLimit)
    /\ ((k < fuel)%nat -> model_status_of H (final o) = kTimeLimit).
Proof.
  induction fuel as [| fuel IH]; intros n s; cbn zeta.
  - exists 0%nat. cbn. rewrite Z.add_0_r. repeat split; try lia.
    intros [r [[] _]].
  - cbn [solve_until_time_limit]. rewrite exec_bind.
    set (s0 := final (exec H (when use_simplex (Invoke setBasis (fun _ => Return tt)))
                        s [])).
    assert (verdict (exec H (when use_simplex (Invoke setBasis (fun _ => Return tt)))
                       s []) = Passed tt
            /\ runs (exec H (when use_simplex (Invoke setBasis (fun _ => Return tt)))
                       s []) = []) as [Hv Hr]
      by (destruct use_simplex; split; reflexivity).
    rewrite Hv, Hr. cbn [exec]. fold (model_status_of H (snd (command H run s0))).
    cbn [app log_run].
    set (r1 := fst (command H run s0)). set (s1 := snd (command H run s0)).
    destruct (HighsModelStatus_eqb (model_status_of H s1) kTimeLimit) eqn:E.
    + apply HighsModelStatus_eqb_eq in E.
      exists 0%nat. cbn. rewrite Z.add_0_r. repeat split; try lia.
      * intros _. exists (r1, s1). split; [now left | exact E].
      * intros _. exact E.
    + apply HighsModelStatus_eqb_neq in E.
      rewrite exec_log. cbn [verdict final runs].
      destruct (IH (n + 1) s1) as [k [Hk [Hle [Hlen [Hiff Hfin]]]]].
      exists (S k). rewrite Hk. repeat split.
      * f_equal. lia.
      * lia.
      * cbn [app length]. rewrite Hlen. lia.
      * intros Hlt. destruct (proj1 Hiff ltac:(lia)) as [r [Hin Hm]].
        exists r. split; [now right | exact Hm].
      * intros [r [[<- | Hin] Hm]]; [ contradiction | ].
        assert (k < fuel)%nat by (apply Hiff; eauto). lia.
      * intros Hlt. apply Hfin. lia.
Qed.

(** *** [testSolvers] and the test case LP-solver *)

Lemma testSolver_limit_test_runs (s : state H) (solver : string)
  (counts : IterationCount) (strategy : HighsInt) :
  (solver = "simplex" -> strategy <> kSimplexStrategyDualTasks) ->
  passes_from H s (testSolver solver counts strategy) ->
  limit_test_runs H (solver =? "simplex")%string counts
    (runs (exec H (testSolver solver counts strategy) s [])).
Proof.
  intros Hs Hp.
  destruct (testSolver_requires H s solver counts strategy Hs Hp)
    as [s1 [s2 [s3 [Hr [H2 [H3 [_ [_ Hc]]]]]]]].
  exists s1, s2, s3. auto.
Qed.

(** With the strategy [kSimplexStrategyDualTasks], [testSolver] returns
    before its first run. *)
Lemma testSolver_DualTasks_runs (s : state H) (counts : IterationCount) :
  runs (exec H (testSolver "simplex" counts kSimplexStrategyDualTasks) s []) = [].
Proof.
  unfold testSolver, REQUIRE, when. cbn.
  destruct (HighsStatus_eqb _ kOk); reflexivity.
Qed.

(** What a passing execution of [testSolvers] has seen: the three runs of
    [testSolver] for the strategies [kSimplexStrategyChoose] and
    [kSimplexStrategyDualPlain], then for the interior-point solver, and
    no run for [kSimplexStrategyDualTasks]. *)
Lemma testSolvers_requires (s : state H) (counts : IterationCount)
  (table : list HighsInt) :
  passes_from H s (testSolvers counts table) ->
  exists choose plain interior,
    runs (exec H (testSolvers counts table) s []) = choose ++ plain ++ interior
    /\ limit_test_runs H true
         (with_simplex_count counts (vector_get table kSimplexStrategyChoose))
         choose
    /\ limit_test_runs H true
         (with_simplex_count counts (vector_get table kSimplexStrategyDualPlain))
         plain
    /\ limit_test_runs H false
         (with_simplex_count counts (vector_get table kSimplexStrategyDualTasks))
         interior.
Proof.
  unfold passes_from, testSolvers. cbn zeta.
  change (Z.to_nat (kSimplexStrategyDualMulti - kSimplexStrategyMin)) with 3%nat.
  cbn [testSolvers_loop]. unfold have_omp. cbn [negb andb].
  change (kSimplexStrategyMin + 1 + 1) with kSimplexStrategyDualTasks.
  change (kSimplexStrategyMin + 1) with kSimplexStrategyDualPlain.
  change kSimplexStrategyMin with kSimplexStrategyChoose.
  intros Hp.
  apply passed_bind in Hp. destruct Hp as [c [Hloop [Hipm [Hr _]]]].
  rewrite Hr. clear Hr.
  apply passed_bind in Hloop. destruct Hloop as [[] [H0 [Hloop [Hr Hf]]]].
  rewrite Hr, Hf in *. clear Hr Hf.
  apply passed_bind in Hloop. destruct Hloop as [[] [H1 [Hloop [Hr Hf]]]].
  rewrite Hr, Hf in *. clear Hr Hf.
  apply passed_bind in Hloop. destruct Hloop as [[] [H2 [Hloop [Hr Hf]]]].
  rewrite Hr, Hf in *. clear Hr Hf.
  cbn in Hloop. injection Hloop as <-. cbn [exec runs final] in *.
  rewrite app_nil_r, testSolver_DualTasks_runs, app_nil_r.
  apply testSolver_limit_test_runs in H0; [ | intros _ E; discriminate E ].
  apply testSolver_limit_test_runs in H1; [ | intros _ E; discriminate E ].
  apply testSolver_limit_test_runs in Hipm; [ | intros E; discriminate E ].
  do 3 eexists. rewrite <- app_assoc. split; [ reflexivity | ].
  split; [ exact H0 | split; [ exact H1 | exact Hipm ] ].
Qed.

Opaque testSolvers.

(** What a passing execution of the test case LP-solver has seen: twelve
    runs.  The first returns [kOk]; then come the three runs of
    [testSolver] for the strategy [kSimplexStrategyChoose] and for
    [kSimplexStrategyDualPlain], each time with 87 iterations expected,
    and for the interior-point solver with 13 iterations and 2 of the
    crossover; the last two return [kOk], the first of them with no dual
    infeasibility and model status [kOptimal].  By then the member
    [simplex] of the counts holds the entry 72 of the table, which the
    checks of the interior-point solver do not look at. *)
Theorem LP_solver_requires (HIGHS_DIR : string) :
  passes H (LP_solver HIGHS_DIR) ->
  exists s1 choose plain interior s2 s3,
    runs (test_case H (LP_solver HIGHS_DIR))
    = [(kOk, s1)] ++ choose ++ plain ++ interior ++ [(kOk, s2); (kOk, s3)]
    /\ limit_test_runs H true (mkIterationCount 87 13 2) choose
    /\ limit_test_runs H true (mkIterationCount 87 13 2) plain
    /\ limit_test_runs H false (mkIterationCount 72 13 2) interior
    /\ num_dual_infeasibilities (query H getInfo s2) = 0
    /\ model_status_of H s2 = kOptimal.
Proof.
  unfold passes, test_case, LP_solver.
  change (testSolversSetup "adlittle" {| simplex := 0; ipm := 0; crossover := 0 |}
            (repeat 0 (Z.to_nat kSimplexStrategyNum)))
    with ({| simplex := 0; ipm := 13; crossover := 2 |}, [87; 87; 72; 73; 94]).
  unfold REQUIRE, when, model_status_of.
  intros Hp. run_program Hp.
  rewrite exec_log in Hp. rewrite exec_log. cbn [verdict runs] in Hp |- *.
  apply passed_bind in Hp. destruct Hp as [[] [Ht [Hp [Hr _]]]].
  rewrite Hr. clear Hr.
  apply testSolvers_requires in Ht.
  destruct Ht as [choose [plain [interior [Hr [Hc [Hpl Hi]]]]]].
  rewrite Hr. clear Hr.
  set (sT := final (exec H (testSolvers _ _) _ [])) in *. clearbody sT.
  run_program Hp. clear Hp. read_requirements.
  exists (snd (command H run
                 (snd (command H setBasis
                    (snd (command H (readModel (instance_file HIGHS_DIR "adlittle"))
                       (snd (command H (setOptionValue "output_flag" (OptBool false))
                          (construct H))))))))),
    choose, plain, interior.
  do 2 eexists.
  split; [ statuses_of_runs H; rewrite <- !app_assoc; reflexivity | ].
  repeat split; assumption.
Qed.

Transparent testSolvers.

(** *** The table of expected counts *)

Lemma testSolver_ipm_counts (c c' : IterationCount) (strategy strategy' : HighsInt) :
  ipm c = ipm c' -> crossover c = crossover c' ->
  testSolver "ipm" c strategy = testSolver "ipm" c' strategy'.
Proof. destruct c, c'; cbn; intros -> ->; reflexivity. Qed.

Lemma testSolver_DualTasks_counts (c c' : IterationCount) :
  testSolver "simplex" c kSimplexStrategyDualTasks
  = testSolver "simplex" c' kSimplexStrategyDualTasks.
Proof. reflexivity. Qed.

(** The loop of [testSolvers] on two tables that agree on the strategies
    of its range, [kSimplexStrategyDualTasks] apart. *)
Lemma testSolvers_loop_agrees (n : nat) : forall (i : HighsInt)
  (counts counts' : IterationCount) (table table' : list HighsInt)
  (s : state H) (log : list (HighsStatus * state H)),
  ipm counts = ipm counts' -> crossover counts = crossover counts' ->
  (forall j, i <= j < i + Z.of_nat n -> j <> kSimplexStrategyDualTasks ->
             vector_get table j = vector_get table' j) ->
  let o := exec H (testSolvers_loop n i counts table) s log in
  let o' := exec H (testSolvers_loop n i counts' table') s log in
  final o = final o' /\ runs o = runs o'
  /\ match verdict o, verdict o' with
     | Passed c, Passed c' => ipm c = ipm c' /\ crossover c = crossover c'
     | Stopped line, Stopped line' => line = line'
     | _, _ => False
     end.
Proof.
  induction n as [| n IH]; intros i counts counts' table table' s log Hi Hc Ht;
    cbn zeta.
  - cbn. auto.
  - cbn [testSolvers_loop]. unfold have_omp. cbn [negb andb].
    rewrite !exec_bind.
    assert (testSolver "simplex"
              {| simplex := vector_get table i; ipm := ipm counts;
                 crossover := crossover counts |} i
            = testSolver "simplex"
                {| simplex := vector_get table' i; ipm := ipm counts';
                   crossover := crossover counts' |} i) as ->.
    { destruct (Z.eq_dec i kSimplexStrategyDualTasks) as [-> | Hne].
      - apply testSolver_DualTasks_counts.
      - rewrite (Ht i) by lia. now rewrite Hi, Hc. }
    destruct (verdict (exec H (testSolver "simplex" _ i) s log)) as [[] | line].
    + apply IH; try assumption. intros j Hj. apply Ht. lia.
    + cbn. auto.
Qed.

(** Whatever the solver does, an execution of [testSolvers] depends on the
    table of expected simplex counts only through its entries for the
    strategies from [kSimplexStrategyMin] up to, and without,
    [kSimplexStrategyDualMulti], [kSimplexStrategyDualTasks] apart; and on
    [model_iteration_count] only through its members [ipm] and
    [crossover].  The entries for [kSimplexStrategyDualTasks],
    [kSimplexStrategyDualMulti] and [kSimplexStrategyPrimal] change
    neither the verdict, nor the runs, nor the state the solver is left
    in. *)
Theorem testSolvers_ignores_other_entries
  (counts counts' : IterationCount) (table table' : list HighsInt)
  (s : state H) :
  ipm counts = ipm counts' -> crossover counts = crossover counts' ->
  (forall j, kSimplexStrategyMin <= j < kSimplexStrategyDualMulti ->
             j <> kSimplexStrategyDualTasks ->
             vector_get table j = vector_get table' j) ->
  exec H (testSolvers counts table) s []
  = exec H (testSolvers counts' table') s [].
Proof.
  intros Hi Hc Ht. unfold testSolvers. cbn zeta. rewrite !exec_bind.
  destruct (testSolvers_loop_agrees
              (Z.to_nat (kSimplexStrategyDualMulti - kSimplexStrategyMin))
              kSimplexStrategyMin counts counts' table table' s [] Hi Hc)
    as [Hf [Hr Hv]].
  { intros j Hj. apply Ht.
    unfold kSimplexStrategyDualMulti, kSimplexStrategyMin in *. lia. }
  rewrite <- Hf, <- Hr.
  destruct (verdict (exec H (testSolvers_loop _ _ counts table) s []))
    as [c | line],
    (verdict (exec H (testSolvers_loop _ _ counts' table') s []))
    as [c' | line']; try contradiction.
  - destruct Hv as [Hi' Hc'].
    now rewrite (testSolver_ipm_counts c c' 0 0 Hi' Hc').
  - now subst.
Qed.

(** *** The simplex strategies that are selected *)

Lemma selects_only_weaken (P Q : HighsInt -> Prop) (cs : list Command) :
  (forall v, P v -> Q v) ->
  Forall (selects_only P) cs -> Forall (selects_only Q) cs.
Proof.
  intros HPQ. apply Forall_impl. intros c Hc value E.
  destruct (Hc value E) as [v [Hv HP]]. eauto.
Qed.

(** The only strategy [testSolver] may select is the one it is given, and
    never [kSimplexStrategyDualTasks]. *)
Lemma testSolver_selects (s : state H) (solver : string)
  (counts : IterationCount) (strategy : HighsInt) :
  Forall (selects_only (fun v => v = strategy /\ v <> kSimplexStrategyDualTasks))
    (calls H (testSolver solver counts strategy) s).
Proof.
  unfold testSolver, testSolver_from_line_59, time_limit_block, REQUIRE, when.
  destruct (String.eqb_spec solver "simplex") as [-> | Hne].
  - destruct (Z.eqb_spec strategy kSimplexStrategyDualTasks) as [E | E].
    + run_anyway; repeat constructor; intros value Ev; discriminate Ev.
    + run_anyway.
      all: repeat constructor; intros value Ev; try discriminate Ev.
      all: injection Ev as <-; eauto.
  - run_anyway.
    all: repeat constructor; intros value Ev; try discriminate Ev.
Qed.

Lemma testSolvers_loop_selects (n : nat) : forall (i : HighsInt)
  (counts : IterationCount) (table : list HighsInt) (s : state H),
  Forall (selects_only (fun v => i <= v < i + Z.of_nat n
                                 /\ v <> kSimplexStrategyDualTasks))
    (calls H (testSolvers_loop n i counts table) s).
Proof.
  induction n as [| n IH]; intros i counts table s; [ constructor | ].
  cbn [testSolvers_loop]. unfold have_omp. cbn [negb andb].
  rewrite calls_bind. apply Forall_app. split.
  - eapply selects_only_weaken; [ | apply testSolver_selects ].
    cbn beta. intros v Hv. lia.
  - destruct (verdict _); [ | constructor ].
    eapply selects_only_weaken; [ | apply IH ].
    cbn beta. intros v Hv. lia.
Qed.

(** Whatever the solver does, every simplex strategy that [testSolvers]
    selects lies in the range of its loop, from [kSimplexStrategyMin] up
    to and without [kSimplexStrategyDualMulti], and is not
    [kSimplexStrategyDualTasks]: the strategies
    [kSimplexStrategyDualTasks], [kSimplexStrategyDualMulti] and
    [kSimplexStrategyPrimal] are never selected. *)
Theorem testSolvers_selects (s : state H) (counts : IterationCount)
  (table : list HighsInt) :
  Forall (selects_only
            (fun v => kSimplexStrategyMin <= v < kSimplexStrategyDualMulti
                      /\ v <> kSimplexStrategyDualTasks
                      /\ v <> kSimplexStrategyPrimal))
    (calls H (testSolvers counts table) s).
Proof.
  unfold testSolvers. cbn zeta. rewrite calls_bind. apply Forall_app. split.
  - eapply selects_only_weaken; [ | apply testSolvers_loop_selects ].
    cbn beta.
    unfold kSimplexStrategyDualMulti, kSimplexStrategyMin, kSimplexStrategyPrimal.
    intros v Hv. lia.
  - destruct (verdict _); [ | constructor ].
    eapply selects_only_weaken; [ | apply testSolver_selects ].
    cbn beta.
    unfold kSimplexStrategyDualMulti, kSimplexStrategyMin,
      kSimplexStrategyDualTasks, kSimplexStrategyPrimal.
    intros v Hv. lia.
Qed.

(** *** Runs that start cold *)

(** Whatever the solver does, in [testSolver] with the simplex solver, in
    the test case dual-objective-upper-bound and in the test case
    simplex-stats every [run()] comes after a [readModel], a [setBasis] or
    a [clearSolver] made since the [run()] before it: no run of these
    programs follows another on what that one left. *)
Theorem simplex_runs_start_cold (s : state H) (counts : IterationCount)
  (strategy : HighsInt) (HIGHS_DIR : string) :
  runs_start_cold false (calls H (testSolver "simplex" counts strategy) s) = true
  /\ runs_start_cold false
       (calls H (dual_objective_upper_bound HIGHS_DIR) s) = true
  /\ runs_start_cold false (calls H (simplex_stats_case HIGHS_DIR) s) = true.
Proof.
  split; [ | split ].
  - unfold testSolver, testSolver_from_line_59, time_limit_block, REQUIRE, when.
    change ("simplex" =? "simplex")%string with true. cbn iota.
    destruct (Z.eqb_spec strategy kSimplexStrategyDualTasks) as [E | E];
      run_anyway; reflexivity.
  - unfold dual_objective_upper_bound, REQUIRE, when.
    run_anyway; reflexivity.
  - unfold simplex_stats_case, REQUIRE.
    run_anyway; reflexivity.
Qed.

(** *** The test case dual-objective *)

(** What a passing execution of the test case dual-objective has seen, for
    each of its four models on a solver of its own: one run returning
    [kOk], after which the primal and the dual objective value are finite
    doubles whose relative gap is below 1e-12. *)
Theorem dual_objective_requires (HIGHS_DIR : string) :
  Forall (passes H) (dual_objective HIGHS_DIR) ->
  Forall
    (fun model =>
       exists s1,
         runs (test_case H (testDualObjective HIGHS_DIR model)) = [(kOk, s1)]
         /\ fst (query H getDualObjectiveValue s1) = kOk
         /\ is_finite (objective_function_value (query H getInfo s1)) = true
         /\ is_finite (snd (query H getDualObjectiveValue s1)) = true
         /\ (relative_primal_dual_gap
               (objective_function_value (query H getInfo s1))
               (snd (query H getDualObjectiveValue s1)) <? 1e-12)%float = true)
    dual_objective_models.
Proof.
  unfold dual_objective. rewrite Forall_map. apply Forall_impl.
  intros model. unfold passes, test_case, testDualObjective, REQUIRE.
  intros Hp. run_program Hp. clear Hp. read_requirements.
  eexists. split; [ statuses_of_runs H; reflexivity | ].
  match goal with
  | A : query H getDualObjectiveValue _ = _ |- _ => rewrite A
  end.
  match goal with
  | G : (relative_primal_dual_gap _ _ <? _)%float = true |- _ =>
      pose proof (relative_primal_dual_gap_below _ _ _ G) as [Hp [Hd _]]
  end.
  rewrite !is_finite_spec. repeat split; assumption.
Qed.

End Executions.

(** *** Options that are saved and restored *)

Section OptionStore.

Import TestLpSolvers.

Variable H : HighsClass.

Hypothesis store : option_store H.

Ltac frame :=
  repeat first
    [ rewrite (int_option_kept H store) by reflexivity
    | rewrite (double_option_kept H store) by reflexivity ].

Ltac frame_answers :=
  repeat match goal with
    | A : query H _ (snd (command H _ _)) = (_, _) |- _ =>
        progress
          (repeat first
             [ rewrite (int_option_kept H store) in A by reflexivity
             | rewrite (double_option_kept H store) in A by reflexivity ])
    end.

Ltac restore :=
  frame;
  rewrite ?(int_option_set H store), ?(double_option_set H store) by assumption;
  frame;
  solve [ reflexivity | symmetry; assumption | assumption ].

(** On a solver whose options behave as a store, a passing execution of
    [testSolver] leaves the options [time_limit],
    [simplex_iteration_limit] and [ipm_iteration_limit] as it found them:
    what lines 59-73 save, lines 135 and 198-205 write back. *)
Theorem testSolver_restores_options (s : state H) (solver : string)
  (counts : IterationCount) (strategy : HighsInt) :
  passes_from H s (testSolver solver counts strategy) ->
  let s' := final (exec H (testSolver solver counts strategy) s []) in
  query H (getOptionValue_double "time_limit") s'
  = query H (getOptionValue_double "time_limit") s
  /\ query H (getOptionValue_int "simplex_iteration_limit") s'
     = query H (getOptionValue_int "simplex_iteration_limit") s
  /\ query H (getOptionValue_int "ipm_iteration_limit") s'
     = query H (getOptionValue_int "ipm_iteration_limit") s.
Proof.
  unfold passes_from, testSolver, testSolver_from_line_59, time_limit_block,
    REQUIRE, when.
  intros Hp.
  destruct (String.eqb_spec solver "simplex") as [-> | Hne].
  - destruct (Z.eqb_spec strategy kSimplexStrategyDualTasks) as [E | E].
    + run_program Hp. clear Hp. repeat split; frame; reflexivity.
    + run_program Hp. clear Hp. read_requirements. subst.
      frame_answers.
      repeat split; restore.
  - run_program Hp. clear Hp. read_requirements. subst.
    frame_answers.
    repeat split; restore.
Qed.

(** On a solver whose options behave as a store, a passing execution of
    the test case dual-objective-upper-bound leaves the option
    [objective_bound] at 150, the last value it set (line 437): the value
    saved at line 373 is never written back. *)
Theorem dual_objective_upper_bound_keeps_last_bound (HIGHS_DIR : string) :
  passes H (dual_objective_upper_bound HIGHS_DIR) ->
  query H (getOptionValue_double "objective_bound")
    (final (test_case H (dual_objective_upper_bound HIGHS_DIR)))
  = (kOk, 150.0%float).
Proof.
  unfold passes, test_case, dual_objective_upper_bound, REQUIRE, when.
  intros Hp. run_program Hp. clear Hp. read_requirements.
  restore.
Qed.

End OptionStore.

(** *** [testSolversSetup] *)

(** On a table that holds an entry for every strategy, [testSolversSetup]
    never changes the length of the table, its entries past the
    strategies, or the member [simplex] of [model_iteration_count].  For
    adlittle it fills in 87, 87, 72, 73 and 94 for the five strategies and
    13 and 2 for the interior-point solver and its crossover; for every
    other model it changes nothing. *)
Theorem testSolversSetup_fills (model : string)
  (counts : TestLpSolvers.IterationCount) (table : list TestLpSolvers.HighsInt) :
  (Z.to_nat TestLpSolvers.kSimplexStrategyNum <= length table)%nat ->
  let counts' := fst (TestLpSolvers.testSolversSetup model counts table) in
  let table' := snd (TestLpSolvers.testSolversSetup model counts table) in
  TestLpSolvers.simplex counts' = TestLpSolvers.simplex counts
  /\ length table' = length table
  /\ (forall j, TestLpSolvers.kSimplexStrategyNum <= j ->
                TestLpSolvers.vector_get table' j = TestLpSolvers.vector_get table j)
  /\ if (model =? "adlittle")%string
     then TestLpSolvers.ipm counts' = 13 /\ TestLpSolvers.crossover counts' = 2
          /\ TestLpSolvers.vector_get table' TestLpSolvers.kSimplexStrategyChoose = 87
          /\ TestLpSolvers.vector_get table' TestLpSolvers.kSimplexStrategyDualPlain = 87
          /\ TestLpSolvers.vector_get table' TestLpSolvers.kSimplexStrategyDualTasks = 72
          /\ TestLpSolvers.vector_get table' TestLpSolvers.kSimplexStrategyDualMulti = 73
          /\ TestLpSolvers.vector_get table' TestLpSolvers.kSimplexStrategyPrimal = 94
     else counts' = counts /\ table' = table.
Proof.
  intros Hlen. unfold TestLpSolvers.testSolversSetup.
  destruct (model =? "adlittle")%string; cbn zeta; [ | cbn; auto ].
  destruct table as [| a [| b [| c [| d [| e rest]]]]];
    try (cbn in Hlen; lia).
  cbn. repeat split; try reflexivity.
  intros j Hj. unfold TestLpSolvers.vector_get, TestLpSolvers.kSimplexStrategyNum in *.
  replace (Z.to_nat j) with (5 + (Z.to_nat j - 5))%nat by lia. reflexivity.
Qed.

(** *** Witnesses *)

Lemma desk_option_store (session : list (TestLpSolvers.HighsStatus * TestLpSolvers.Snapshot)) :
  TestLpSolvers.option_store (TestLpSolvers.desk session).
Proof.
  split.
  - intros key v s _. cbn. now rewrite String.eqb_refl.
  - intros key v s _. cbn. now rewrite String.eqb_refl.
  - intros c key s Hc. destruct c as [k v | f | | | | o |]; cbn in *;
      try discriminate Hc; try reflexivity.
    + rewrite String.eqb_sym in Hc. destruct v; cbn; now rewrite ?Hc.
    + destruct (TestLpSolvers.to_come s) as [| [st sh] rest]; reflexivity.
  - intros c key s Hc. destruct c as [k v | f | | | | o |]; cbn in *;
      try discriminate Hc; try reflexivity.
    + rewrite String.eqb_sym in Hc. destruct v; cbn; now rewrite ?Hc.
    + destruct (TestLpSolvers.to_come s) as [| [st sh] rest]; reflexivity.
Qed.

Lemma LP_solver_requires_witness :
  let H := TestLpSolvers.replay TestLpSolvers.idle TestLpSolvers.adlittle_session in
  exists s1 choose plain interior s2 s3,
    TestLpSolvers.runs (TestLpSolvers.test_case H (TestLpSolvers.LP_solver "HiGHS"))
    = ([(TestLpSolvers.kOk, s1)] ++ choose ++ plain ++ interior
       ++ [(TestLpSolvers.kOk, s2); (TestLpSolvers.kOk, s3)])%list
    /\ TestLpSolvers.limit_test_runs H true
         (TestLpSolvers.mkIterationCount 87 13 2) choose
    /\ TestLpSolvers.limit_test_runs H true
         (TestLpSolvers.mkIterationCount 87 13 2) plain
    /\ TestLpSolvers.limit_test_runs H false
         (TestLpSolvers.mkIterationCount 72 13 2) interior
    /\ TestLpSolvers.num_dual_infeasibilities
         (TestLpSolvers.query H TestLpSolvers.getInfo s2) = 0
    /\ TestLpSolvers.model_status_of H s2 = TestLpSolvers.kOptimal.
Proof.
  apply (LP_solver_requires
           (TestLpSolvers.replay TestLpSolvers.idle TestLpSolvers.adlittle_session)
           "HiGHS").
  vm_compute. reflexivity.
Defined.

Lemma testSolvers_ignores_other_entries_witness :
  let H := TestLpSolvers.replay TestLpSolvers.idle TestLpSolvers.testSolvers_session in
  TestLpSolvers.exec H
    (TestLpSolvers.testSolvers (TestLpSolvers.mkIterationCount 0 13 2)
       [87; 87; 72; 73; 94])
    (TestLpSolvers.construct H) []
  = TestLpSolvers.exec H
      (TestLpSolvers.testSolvers (TestLpSolvers.mkIterationCount 5 13 2)
         [87; 87; 0; 0; 0])
      (TestLpSolvers.construct H) [].
Proof.
  apply (testSolvers_ignores_other_entries
           (TestLpSolvers.replay TestLpSolvers.idle TestLpSolvers.testSolvers_session)
           (TestLpSolvers.mkIterationCount 0 13 2)
           (TestLpSolvers.mkIterationCount 5 13 2)
           [87; 87; 72; 73; 94] [87; 87; 0; 0; 0]).
  - reflexivity.
  - reflexivity.
  - intros j Hj Hne.
    unfold TestLpSolvers.kSimplexStrategyMin, TestLpSolvers.kSimplexStrategyDualMulti,
      TestLpSolvers.kSimplexStrategyDualTasks in *.
    assert (j = 0 \/ j = 1) as [-> | ->] by lia; reflexivity.
Defined.

Lemma dual_objective_requires_witness :
  let H := TestLpSolvers.replay TestLpSolvers.idle TestLpSolvers.avgas_session in
  Forall
    (fun model =>
       exists s1,
         TestLpSolvers.runs
           (TestLpSolvers.test_case H (TestLpSolvers.testDualObjective "HiGHS" model))
         = [(TestLpSolvers.kOk, s1)]
         /\ fst (TestLpSolvers.query H TestLpSolvers.getDualObjectiveValue s1)
            = TestLpSolvers.kOk
         /\ is_finite
              (TestLpSolvers.objective_function_value
                 (TestLpSolvers.query H TestLpSolvers.getInfo s1)) = true
         /\ is_finite
              (snd (TestLpSolvers.query H TestLpSolvers.getDualObjectiveValue s1))
            = true
         /\ (TestLpSolvers.relative_primal_dual_gap
               (TestLpSolvers.objective_function_value
                  (TestLpSolvers.query H TestLpSolvers.getInfo s1))
               (snd (TestLpSolvers.query H TestLpSolvers.getDualObjectiveValue s1))
             <? 1e-12)%float = true)
    TestLpSolvers.dual_objective_models.
Proof.
  apply (dual_objective_requires
           (TestLpSolvers.replay TestLpSolvers.idle TestLpSolvers.avgas_session)
           "HiGHS").
  repeat constructor.
Defined.

Lemma testSolver_restores_options_witness :
  let H := TestLpSolvers.desk TestLpSolvers.ipm_runs in
  let s' :=
    TestLpSolvers.final
      (TestLpSolvers.exec H
         (TestLpSolvers.testSolver "ipm" (TestLpSolvers.mkIterationCount 0 13 2) 0)
         (TestLpSolvers.construct H) []) in
  TestLpSolvers.query H (TestLpSolvers.getOptionValue_double "time_limit") s'
  = TestLpSolvers.query H (TestLpSolvers.getOptionValue_double "time_limit")
      (TestLpSolvers.construct H)
  /\ TestLpSolvers.query H
       (TestLpSolvers.getOptionValue_int "simplex_iteration_limit") s'
     = TestLpSolvers.query H
         (TestLpSolvers.getOptionValue_int "simplex_iteration_limit")
         (TestLpSolvers.construct H)
  /\ TestLpSolvers.query H
       (TestLpSolvers.getOptionValue_int "ipm_iteration_limit") s'
     = TestLpSolvers.query H
         (TestLpSolvers.getOptionValue_int "ipm_iteration_limit")
         (TestLpSolvers.construct H).
Proof.
  apply (testSolver_restores_options (TestLpSolvers.desk TestLpSolvers.ipm_runs)
           (desk_option_store TestLpSolvers.ipm_runs)
           (TestLpSolvers.construct (TestLpSolvers.desk TestLpSolvers.ipm_runs))
           "ipm" (TestLpSolvers.mkIterationCount 0 13 2) 0).
  vm_compute. reflexivity.
Defined.

Lemma dual_objective_upper_bound_keeps_last_bound_witness :
  TestLpSolvers.query (TestLpSolvers.desk TestLpSolvers.e226_runs)
    (TestLpSolvers.getOptionValue_double "objective_bound")
    (TestLpSolvers.final
       (TestLpSolvers.test_case (TestLpSolvers.desk TestLpSolvers.e226_runs)
          (TestLpSolvers.dual_objective_upper_bound "HiGHS")))
  = (TestLpSolvers.kOk, 150.0%float).
Proof.
  apply (dual_objective_upper_bound_keeps_last_bound
           (TestLpSolvers.desk TestLpSolvers.e226_runs)
           (desk_option_store TestLpSolvers.e226_runs) "HiGHS").
  vm_compute. reflexivity.
Defined.

Lemma testSolversSetup_fills_witness :
  let counts' :=
    fst (TestLpSolvers.testSolversSetup "adlittle"
           (TestLpSolvers.mkIterationCount 7 0 0) [0; 0; 0; 0; 0; 9]) in
  let table' :=
    snd (TestLpSolvers.testSolversSetup "adlittle"
           (TestLpSolvers.mkIterationCount 7 0 0) [0; 0; 0; 0; 0; 9]) in
  TestLpSolvers.simplex counts' = 7
  /\ length table' = 6%nat
  /\ (forall j, TestLpSolvers.kSimplexStrategyNum <= j ->
                TestLpSolvers.vector_get table' j
                = TestLpSolvers.vector_get [0; 0; 0; 0; 0; 9] j)
  /\ TestLpSolvers.ipm counts' = 13 /\ TestLpSolvers.crossover counts' = 2
  /\ TestLpSolvers.vector_get table' TestLpSolvers.kSimplexStrategyChoose = 87
  /\ TestLpSolvers.vector_get table' TestLpSolvers.kSimplexStrategyDualPlain = 87
  /\ TestLpSolvers.vector_get table' TestLpSolvers.kSimplexStrategyDualTasks = 72
  /\ TestLpSolvers.vector_get table' TestLpSolvers.kSimplexStrategyDualMulti = 73
  /\ TestLpSolvers.vector_get table' TestLpSolvers.kSimplexStrategyPrimal = 94.
Proof.
  apply (testSolversSetup_fills "adlittle" (TestLpSolvers.mkIterationCount 7 0 0)
           [0; 0; 0; 0; 0; 9]).
  cbn. lia.
Defined.
